(** * Red-teaming a Copilot Studio agent: the callback target and the scan driver

    A shallow embedding of [src/targets/mcs_agent_callback.py] and
    [src/red_team_scan.py], and the properties of the specification that
    hold (or fail) on them.

    Python strings are modelled as [string] (a sequence of bytes, the UTF-8
    encoding of the text): the characters the code inspects, the dollar sign,
    the braces and the ASCII letters, are single bytes that occur in no
    multi-byte sequence. *)

From Stdlib Require Import ZArith Floats Ascii String.
From stdpp Require Import base option list strings gmap pretty.

Local Open Scope string_scope.
Local Open Scope list_scope.

(** ** The Python runtime, as far as the two files use it *)

Module Py.

(** Exceptions.  Every constructor but [BaseOnly] is a class deriving from
    [Exception]; [BaseOnly] stands for the classes that derive from
    [BaseException] alone ([KeyboardInterrupt], [SystemExit],
    [GeneratorExit], [asyncio.CancelledError]), which [except Exception]
    lets through. *)
Inductive PyExc : Type :=
| ValueError (msg : string)
| FileNotFoundError (msg : string)
| IndexError (msg : string)
| KeyError (key : string)
| TypeError (msg : string)
| AttributeError (obj attr : string)
| OtherError (cls msg : string)
| BaseOnly (cls msg : string).

(** [isinstance(e, Exception)] *)
Definition isinstance_Exception (e : PyExc) : bool :=
  match e with
  | BaseOnly _ _ => false
  | _ => true
  end.

(** [str(e)], what [{e!s}] renders in an f-string. *)
Definition str_exc (e : PyExc) : string :=
  match e with
  | ValueError msg | FileNotFoundError msg | IndexError msg | TypeError msg => msg
  | KeyError key => "'" +:+ key +:+ "'"
  | AttributeError obj attr => obj +:+ " has no attribute '" +:+ attr +:+ "'"
  | OtherError _ msg | BaseOnly _ msg => msg
  end.

(** A call either returns or raises. *)
Inductive result (A : Type) : Type :=
| Ok (a : A)
| Raise (e : PyExc).
Arguments Ok {A} a.
Arguments Raise {A} e.

#[global] Instance result_ret : MRet result := fun A a => Ok a.
#[global] Instance result_bind : MBind result := fun A B f m =>
  match m with
  | Ok a => f a
  | Raise e => Raise e
  end.

(** Code that also prints: the lines written to standard output, in
    order, and how the call ended. *)
Definition io (A : Type) : Type := (list string * result A)%type.

#[global] Instance io_ret : MRet io := fun A a => ([], Ok a).
#[global] Instance io_bind : MBind io := fun A B f m =>
  match m with
  | (out, Ok a) => let '(out', r) := f a in (out ++ out', r)
  | (out, Raise e) => (out, Raise e)
  end.

Definition print (line : string) : io unit := ([line], Ok tt).
Definition lift {A} (r : result A) : io A := ([], r).

(** [try: body / except Exception as e: handler e] *)
Definition try_except {A} (body : io A) (handler : PyExc -> io A) : io A :=
  match body with
  | (out, Raise e) =>
      if isinstance_Exception e
      then let '(out', r) := handler e in (out ++ out', r)
      else (out, Raise e)
  | (out, Ok a) => (out, Ok a)
  end.

(** A [for] loop over a list whose body updates the loop state and may
    raise. *)
Fixpoint for_loop {A S} (items : list A) (body : S -> A -> result S) (s : S)
  : result S :=
  match items with
  | [] => Ok s
  | x :: rest => s' ← body s x; for_loop rest body s'
  end.

(** Values: what [json.loads] produces, and what the dictionaries of the
    callback hold. *)
#[warnings="-register-all"]
Inductive pyval : Type :=
| PyNone
| PyBool (b : bool)
| PyInt (z : Z)
| PyFloat (f : float)
| PyStr (s : string)
| PyList (l : list pyval)
| PyDict (d : gmap string pyval).

(** [bool(v)] *)
Definition truthy (v : pyval) : bool :=
  match v with
  | PyNone => false
  | PyBool b => b
  | PyInt z => negb (z =? 0)%Z
  | PyFloat f => negb (f =? 0)%float
  | PyStr s => negb (String.eqb s "")
  | PyList l => match l with [] => false | _ => true end
  | PyDict d => negb (Nat.eqb (size d) 0)
  end.

Definition is_None (v : pyval) : bool :=
  match v with PyNone => true | _ => false end.

(** [v == s] for a string literal [s] *)
Definition eq_str (v : pyval) (s : string) : bool :=
  match v with PyStr s' => String.eqb s' s | _ => false end.

(** [type(v).__name__] *)
Definition type_name (v : pyval) : string :=
  match v with
  | PyNone => "NoneType"
  | PyBool _ => "bool"
  | PyInt _ => "int"
  | PyFloat _ => "float"
  | PyStr _ => "str"
  | PyList _ => "list"
  | PyDict _ => "dict"
  end.

(** [d.get(key)] and [d.get(key, default)] on a dictionary. *)
Definition dict_get (d : gmap string pyval) (key : string) : pyval :=
  default PyNone (d !! key).
Definition dict_get_default (d : gmap string pyval) (key : string) (dflt : pyval)
  : pyval :=
  default dflt (d !! key).

(** [v.get(key)] on any value: only a dictionary has the method. *)
Definition method_get (v : pyval) (key : string) : result pyval :=
  match v with
  | PyDict d => Ok (dict_get d key)
  | _ => Raise (AttributeError ("'" +:+ type_name v +:+ "' object") "get")
  end.

(** [d[key]] *)
Definition getitem {V} (d : gmap string V) (key : string) : result V :=
  match d !! key with
  | Some v => Ok v
  | None => Raise (KeyError key)
  end.

(** [l[-1]] *)
Definition list_last {A} (l : list A) : result A :=
  match last l with
  | Some x => Ok x
  | None => Raise (IndexError "list index out of range")
  end.

(** [all(l)] *)
Definition all (l : list pyval) : bool := forallb truthy l.

(** [sep.join(items)] for [sep = ""], where an item is a [str] ([Some]) or
    [None]: the items are type-checked in order, and the first that is not
    a string raises. *)
Fixpoint join_from (i : nat) (items : list (option string)) : result string :=
  match items with
  | [] => Ok ""
  | Some s :: rest => r ← join_from (S i) rest; Ok (s +:+ r)
  | None :: _ =>
      Raise (TypeError ("sequence item " +:+ pretty i +:+
                        ": expected str instance, NoneType found"))
  end.
Definition join (items : list (option string)) : result string :=
  join_from 0 items.

(** ASCII case folding: the letters a to z become A to Z, every other
    character stays. *)
Definition upper_ascii (c : ascii) : ascii :=
  let n := nat_of_ascii c in
  if (97 <=? n)%nat && (n <=? 122)%nat then ascii_of_nat (n - 32) else c.
Fixpoint ascii_upper (s : string) : string :=
  match s with
  | EmptyString => EmptyString
  | String c rest => String (upper_ascii c) (ascii_upper rest)
  end.

(** A text of ASCII characters only. *)
Definition is_ascii (s : string) : Prop :=
  forallb (fun c => (nat_of_ascii c <? 128)%nat) (list_ascii_of_string s) = true.

(** [s.upper()] is Unicode-aware: it applies the full case mapping of the
    Unicode database of the interpreter, so that the long s becomes S, the
    dotless i becomes I and the ligature ffi becomes FFI.  The mapping is a
    parameter; what is known of it is what it does to ASCII text, which it
    folds as [ascii_upper] does. *)
Class CaseMapping : Type := {
  str_upper : string -> string;
  str_upper_ascii : forall s, is_ascii s -> str_upper s = ascii_upper s;
}.

End Py.
Import Py.


(** ** [src/targets/mcs_agent_callback.py] *)

Module McsAgentCallback.

(** [McsAgentConfig]: a dataclass; its annotations ([str]) are not enforced
    at run time, so a field holds whatever value the configuration gave. *)
Record McsAgentConfig : Type := {
  tenant_id : pyval;
  app_client_id : pyval;
  environment_id : pyval;
  agent_identifier : pyval;
}.

(** [microsoft.agents.core.models]: a response event ([Activity]) carries a
    type tag and an optional text; [ActivityTypes.message] is the string
    enumeration member ["message"]. *)
Record Activity : Type := {
  type : string;
  text : option string;
}.
Definition ActivityTypes_message : string := "message".

(** [src.CopilotStudioClient], the session client the callback drives, is a
    parameter: its two constructors and its two asynchronous calls, each of
    which returns or raises.  [start_conversation_async] returns the client
    with its session open. *)
Class CopilotStudioClient : Type := {
  ConnectionSettings : Type;
  Client : Type;
  McsConnectionSettings : pyval -> pyval -> pyval -> pyval -> result ConnectionSettings;
  McsCopilotClient : ConnectionSettings -> result Client;
  start_conversation_async : Client -> result Client;
  ask_question_async : Client -> string -> result (list Activity);
}.

(** A conversation turn as the engine passes it: an object with [role] and
    [content]. *)
Record Message : Type := {
  role : string;
  content : string;
}.

(** [McsAgentCallbackTarget]: the object holds the configuration. *)
Record McsAgentCallbackTarget : Type := {
  mcs_agent_config : McsAgentConfig;
}.

Section Callback.
Context `{backend : CopilotStudioClient}.

(** The generator handed to [join]: the texts of the message events, in the
    order received. *)
Definition message_texts (activities : list Activity) : list (option string) :=
  text <$> filter (fun activity => type activity = ActivityTypes_message) activities.

(** Lines 42-74, the body of the [try]. *)
Definition guarded_region (self : McsAgentCallbackTarget) (latest_message : string)
  : io (gmap string pyval) :=
  connection_settings ← lift (McsConnectionSettings
      (tenant_id (mcs_agent_config self))
      (app_client_id (mcs_agent_config self))
      (environment_id (mcs_agent_config self))
      (agent_identifier (mcs_agent_config self)));
  client ← lift (McsCopilotClient connection_settings);
  client ← lift (start_conversation_async client);
  activities ← lift (ask_question_async client latest_message);
  joined ← lift (join (message_texts activities));
  let content := PyStr joined in
  content ← (if is_None content || eq_str content ""
             then _ ← print "Warning: MCS Agent returned None or empty content, using default message";
                  mret (PyStr "I cannot provide a response to this request.")
             else mret content);
  mret ({[ "content" := content; "role" := PyStr "assistant" ]} : gmap string pyval).

(** Lines 76-81, the handler of [except Exception as e]. *)
Definition error_handler (e : PyExc) : io (gmap string pyval) :=
  _ ← print ("Error calling Microsoft Copilot Studio Agent: " +:+ str_exc e);
  mret ({[ "content" := PyStr "I encountered an error and couldn't process your request.";
           "role" := PyStr "assistant" ]} : gmap string pyval).

(** Lines 83-86, the final guard on the content. *)
Definition null_guard (formatted_response : gmap string pyval) : io (gmap string pyval) :=
  if is_None (dict_get formatted_response "content")
  then _ ← print "Warning: Formatted response content was None, replaced with default";
       mret (<["content" := PyStr "No response available."]> formatted_response)
  else mret formatted_response.

(** [mcs_agent_callback(messages, stream, session_state, context)]; the last
    three arguments are unused. *)
Definition mcs_agent_callback (self : McsAgentCallbackTarget) (messages : list Message)
  : io (gmap string (list (gmap string pyval))) :=
  let messages_list : list (gmap string string) :=
    (fun message => {[ "role" := role message; "content" := content message ]}) <$> messages in
  latest_message ← lift (last_turn ← list_last messages_list; getitem last_turn "content");
  formatted_response ← try_except (guarded_region self latest_message) error_handler;
  formatted_response ← null_guard formatted_response;
  mret {[ "messages" := [formatted_response] ]}.

(** [create_callback] and [get_target] return the callback closed over
    [self]. *)
Definition create_callback (self : McsAgentCallbackTarget) := mcs_agent_callback self.
Definition get_target (self : McsAgentCallbackTarget) := create_callback self.

End Callback.
End McsAgentCallback.

(** ** [src/red_team_scan.py] *)

Module RedTeamScan.
Import McsAgentCallback.

(** *** Environment variables in the configuration text *)

(** [os.getenv(name)] over the process environment [os.environ]. *)
Definition os_getenv (environ : gmap string string) (name : string) : option string :=
  environ !! name.

(** The pattern [\$\{([^}]+)\}].  [group_then_close s] matches [[^}]*\}] at the
    start of [s] and returns the run before the closing brace; the run
    cannot be shortened nor extended, since it must stop at the first
    closing brace. *)
Fixpoint group_then_close (s : string) : option string :=
  match s with
  | EmptyString => None
  | String c rest =>
      if Ascii.eqb c "}" then Some EmptyString
      else match group_then_close rest with
           | Some name => Some (String c name)
           | None => None
           end
  end.

(** The pattern matched at the start of [s]: [match.group(1)]. *)
Definition match_placeholder (s : string) : option string :=
  match s with
  | String c1 (String c2 body) =>
      if Ascii.eqb c1 "$" && Ascii.eqb c2 "{" then
        match group_then_close body with
        | Some (String c name) => Some (String c name)
        | _ => None
        end
      else None
  | _ => None
  end.

(** [re.sub(pattern, repl, text)] for this pattern and a callable [repl]:
    the text is scanned from the left; where the pattern matches, [repl] is
    called on the group, its result is emitted as it is, and the scan
    resumes after the match ([skip] counts the characters of the match still
    to pass); elsewhere the character is copied.  An exception of [repl]
    ends the call. *)
Fixpoint re_sub_from (skip : nat) (repl : string -> result string) (text : string)
  : result string :=
  match text with
  | EmptyString => Ok EmptyString
  | String c rest =>
      match skip with
      | S skip' => re_sub_from skip' repl rest
      | O =>
          match match_placeholder text with
          | Some name =>
              value ← repl name;
              tail ← re_sub_from (String.length name + 2) repl rest;
              Ok (value +:+ tail)
          | None =>
              tail ← re_sub_from 0 repl rest;
              Ok (String c tail)
          end
      end
  end.
Definition re_sub (repl : string -> result string) (text : string) : result string :=
  re_sub_from 0 repl text.

Definition replace_func (environ : gmap string string) (var_name : string)
  : result string :=
  match os_getenv environ var_name with
  | None => Raise (ValueError ("Environment variable '" +:+ var_name +:+ "' not found"))
  | Some value => Ok value
  end.

Definition substitute_env_vars (environ : gmap string string) (text : string)
  : result string :=
  re_sub (replace_func environ) text.

(** *** Loading the configuration *)

(** The file system: a path names a regular file with its contents, or a
    directory. *)
Inductive fs_entry : Type :=
| File (contents : string)
| Directory.

Definition os_path_exists (fs : gmap string fs_entry) (path : string) : bool :=
  match fs !! path with Some _ => true | None => false end.

(** [open(path, 'r')] followed by [read()]. *)
Definition read_text (fs : gmap string fs_entry) (path : string) : result string :=
  match fs !! path with
  | Some (File contents) => Ok contents
  | Some Directory =>
      Raise (OtherError "IsADirectoryError" ("[Errno 21] Is a directory: '" +:+ path +:+ "'"))
  | None =>
      Raise (FileNotFoundError ("[Errno 2] No such file or directory: '" +:+ path +:+ "'"))
  end.

Section Config.
(** [json.loads], of the standard library. *)
Variable json_loads : string -> result pyval.

Definition load_config (fs : gmap string fs_entry) (environ : gmap string string)
    (config_path : string) : result pyval :=
  if negb (os_path_exists fs config_path)
  then Raise (FileNotFoundError ("Configuration file not found: " +:+ config_path))
  else
    raw_content ← read_text fs config_path;
    processed_content ← substitute_env_vars environ raw_content;
    json_loads processed_content.

End Config.

(** [v[key]] on a value. *)
Definition subscript (v : pyval) (key : string) : result pyval :=
  match v with
  | PyDict d => getitem d key
  | _ => Raise (TypeError ("'" +:+ type_name v +:+ "' object is not subscriptable"))
  end.

Definition create_mcs_agent_config (config_data : gmap string pyval)
  : result (option McsAgentConfig) :=
  let mcs_config := dict_get_default config_data "mcs_agent" (PyDict ∅) in
  v1 ← method_get mcs_config "tenant_id";
  v2 ← method_get mcs_config "app_client_id";
  v3 ← method_get mcs_config "environment_id";
  v4 ← method_get mcs_config "agent_identifier";
  if negb (all [v1; v2; v3; v4]) then Ok None
  else
    t ← subscript mcs_config "tenant_id";
    a ← subscript mcs_config "app_client_id";
    e ← subscript mcs_config "environment_id";
    g ← subscript mcs_config "agent_identifier";
    Ok (Some {| tenant_id := t; app_client_id := a;
                environment_id := e; agent_identifier := g |}).

(** *** The target *)

Definition create_target `{backend : CopilotStudioClient}
    (target_type : string) (mcs_agent_config : option McsAgentConfig)
  : result (list Message -> io (gmap string (list (gmap string pyval)))) :=
  if String.eqb target_type "mcs_agent_callback" then
    match mcs_agent_config with
    | None => Raise (ValueError "MCS Agent config is required for MCS Agent callback target")
    | Some config =>
        let target := {| McsAgentCallback.mcs_agent_config := config |} in
        Ok (get_target target)
    end
  else
    Raise (ValueError ("Unsupported target type: " +:+ target_type +:+
                       ". Only 'mcs_agent_callback' is supported.")).

(** *** Risk categories and attack strategies *)

(** [azure.ai.evaluation.red_team], the engine, is a parameter: its two
    enumerations, attribute lookup by name on each ([None] where [getattr]
    raises [AttributeError]), and the three tier members the code names;
    so is the credential that [azure.identity] supplies. *)
Class Engine : Type := {
  RiskCategory : Type;
  AttackStrategy : Type;
  RiskCategory_attr : string -> option RiskCategory;
  AttackStrategy_attr : string -> option AttackStrategy;
  AttackStrategy_EASY : AttackStrategy;
  AttackStrategy_MODERATE : AttackStrategy;
  AttackStrategy_DIFFICULT : AttackStrategy;
  Credential : Type;
  DefaultAzureCredential : Credential;
}.

Section Scan.
Context `{engine : Engine} `{unicode : CaseMapping}.

(** [getattr(cls, name)] on an enumeration class. *)
Definition getattr {A} (cls : string) (attrs : string -> option A) (name : string)
  : result A :=
  match attrs name with
  | Some member => Ok member
  | None => Raise (AttributeError ("type object '" +:+ cls +:+ "'") name)
  end.

Definition parse_risk_categories (category_strings : list string)
  : result (list RiskCategory) :=
  for_loop category_strings
    (fun risk_categories category_str =>
       member ← getattr "RiskCategory" RiskCategory_attr category_str;
       Ok (risk_categories ++ [member]))
    [].

(** The body of the loop of [parse_attack_strategies]. *)
Definition append_strategy (attack_strategies : list AttackStrategy)
    (strategy_str : string) : result (list AttackStrategy) :=
  if String.eqb (str_upper strategy_str) "EASY" then
    Ok (attack_strategies ++ [AttackStrategy_EASY])
  else if String.eqb (str_upper strategy_str) "MODERATE" then
    Ok (attack_strategies ++ [AttackStrategy_MODERATE])
  else if String.eqb (str_upper strategy_str) "DIFFICULT" then
    Ok (attack_strategies ++ [AttackStrategy_DIFFICULT])
  else
    member ← getattr "AttackStrategy" AttackStrategy_attr strategy_str;
    Ok (attack_strategies ++ [member]).

Definition parse_attack_strategies (strategy_strings : list string)
  : result (list AttackStrategy) :=
  for_loop strategy_strings append_strategy [].

(** *** The engine instance *)

(** A [RedTeam] instance, as the keyword arguments of the constructor call
    that built it; [None] is a keyword the call leaves out. *)
Record RedTeam : Type := {
  azure_ai_project : string;
  credential : Credential;
  risk_categories : option (list RiskCategory);
  num_objectives : option Z;
  custom_attack_seed_prompts : option string;
}.

(** [custom_prompts_path and os.path.exists(custom_prompts_path)], as a
    condition. *)
Definition use_custom_prompts (fs : gmap string fs_entry)
    (custom_prompts_path : option string) : bool :=
  match custom_prompts_path with
  | None => false
  | Some path => negb (String.eqb path "") && os_path_exists fs path
  end.

Definition create_red_team (fs : gmap string fs_entry) (project_endpoint : string)
    (risk_categories : list RiskCategory) (num_objectives : Z)
    (custom_prompts_path : option string) : io RedTeam :=
  let credential := DefaultAzureCredential in
  if use_custom_prompts fs custom_prompts_path then
    _ ← print ("Using custom prompts from: " +:+ default "" custom_prompts_path);
    mret {| azure_ai_project := project_endpoint;
            credential := credential;
            risk_categories := None;
            num_objectives := None;
            custom_attack_seed_prompts := custom_prompts_path |}
  else
    _ ← print ("Using standard risk categories with " +:+ pretty num_objectives +:+
               " objectives");
    mret {| azure_ai_project := project_endpoint;
            credential := credential;
            risk_categories := Some risk_categories;
            num_objectives := Some num_objectives;
            custom_attack_seed_prompts := None |}.

End Scan.
End RedTeamScan.

(** ** Vocabulary of the specification *)

Module Spec.
Import McsAgentCallback RedTeamScan.

Section Adapter.
Context `{backend : CopilotStudioClient}.

Definition settings_of (self : McsAgentCallbackTarget) : result ConnectionSettings :=
  McsConnectionSettings
    (tenant_id (mcs_agent_config self)) (app_client_id (mcs_agent_config self))
    (environment_id (mcs_agent_config self)) (agent_identifier (mcs_agent_config self)).

(** One of the steps of the guarded region raises [e] on the question
    [question]: building the connection settings, creating the client,
    opening the session, asking the question, or joining the texts of the
    response. *)
Inductive step_raises (self : McsAgentCallbackTarget) (question : string) (e : PyExc)
  : Prop :=
| settings_raise :
    settings_of self = Raise e -> step_raises self question e
| client_raise settings :
    settings_of self = Ok settings ->
    McsCopilotClient settings = Raise e -> step_raises self question e
| session_raise settings client :
    settings_of self = Ok settings ->
    McsCopilotClient settings = Ok client ->
    start_conversation_async client = Raise e -> step_raises self question e
| ask_raise settings client session :
    settings_of self = Ok settings ->
    McsCopilotClient settings = Ok client ->
    start_conversation_async client = Ok session ->
    ask_question_async session question = Raise e -> step_raises self question e
| extract_raise settings client session activities :
    settings_of self = Ok settings ->
    McsCopilotClient settings = Ok client ->
    start_conversation_async client = Ok session ->
    ask_question_async session question = Ok activities ->
    join (message_texts activities) = Raise e -> step_raises self question e.

(** The session opens and the question is answered with the response events
    [activities]. *)
Inductive backend_answers (self : McsAgentCallbackTarget) (question : string)
    (activities : list Activity) : Prop :=
| answers settings client session :
    settings_of self = Ok settings ->
    McsCopilotClient settings = Ok client ->
    start_conversation_async client = Ok session ->
    ask_question_async session question = Ok activities ->
    backend_answers self question activities.

End Adapter.

(** The content of the message of a reply envelope. *)
Definition content_of (reply : gmap string (list (gmap string pyval))) : option pyval :=
  match reply !! "messages" with
  | Some [formatted_response] => formatted_response !! "content"
  | _ => None
  end.

(** *** Placeholders of a configuration text *)

Definition no_closing_brace (name : string) : Prop :=
  ~ In "}"%char (list_ascii_of_string name).

(** [text] begins with the placeholder [${name}], and [after] follows it:
    the name is not empty and holds no closing brace. *)
Definition begins_with_placeholder (text name after : string) : Prop :=
  text = "${" +:+ name +:+ "}" +:+ after /\ name <> "" /\ no_closing_brace name.

Inductive segment : Type :=
| Literal (c : ascii)
| Placeholder (name : string).

(** A text read from the left as placeholders and literal characters: a
    character is literal only where no placeholder begins. *)
Inductive segments : string -> list segment -> Prop :=
| segments_end : segments "" []
| segments_placeholder text name after rest :
    begins_with_placeholder text name after ->
    segments after rest ->
    segments text (Placeholder name :: rest)
| segments_literal c text rest :
    (forall name after, ~ begins_with_placeholder (String c text) name after) ->
    segments text rest ->
    segments (String c text) (Literal c :: rest).

Definition render_segment (seg : segment) : string :=
  match seg with
  | Literal c => String c ""
  | Placeholder name => "${" +:+ name +:+ "}"
  end.
Definition render (segs : list segment) : string :=
  foldr (fun seg acc => render_segment seg +:+ acc) "" segs.

(** The names of the placeholders, from the left. *)
Definition names (segs : list segment) : list string :=
  omap (fun seg => match seg with Placeholder name => Some name | Literal _ => None end) segs.

(** The first name that the environment does not define. *)
Definition first_unset (environ : gmap string string) (vars : list string)
  : option string :=
  List.find (fun name => match os_getenv environ name with None => true | Some _ => false end)
            vars.

(** The text with each placeholder replaced by the value of its variable. *)
Definition expand_segment (environ : gmap string string) (seg : segment) : string :=
  match seg with
  | Literal c => String c ""
  | Placeholder name => default "" (os_getenv environ name)
  end.
Definition expand (environ : gmap string string) (segs : list segment) : string :=
  foldr (fun seg acc => expand_segment environ seg +:+ acc) "" segs.

(** [msg] mentions [name]. *)
Definition mentions (msg name : string) : Prop :=
  exists before after, msg = before +:+ name +:+ after.

(** *** Names of attack strategies *)

(** Equality of two texts up to the case of their ASCII letters: at each
    place the characters are equal, or one is a capital letter and the other
    the small letter 32 places further. *)
Definition capital (c : ascii) : Prop :=
  65 <= nat_of_ascii c <= 90.
Definition same_letter (c d : ascii) : Prop :=
  c = d \/
  (capital d /\ nat_of_ascii c = nat_of_ascii d + 32) \/
  (capital c /\ nat_of_ascii d = nat_of_ascii c + 32).
Fixpoint equal_ignoring_case (s t : string) : Prop :=
  match s, t with
  | EmptyString, EmptyString => True
  | String c s', String d t' => same_letter c d /\ equal_ignoring_case s' t'
  | _, _ => False
  end.

Definition tier_names : list string := ["EASY"; "MODERATE"; "DIFFICULT"].

Section StrategyNames.
Context `{engine : Engine} `{unicode : CaseMapping}.

(** The upper-case form of the name is the name of a tier. *)
Definition names_tier (name : string) : Prop :=
  str_upper name = "EASY" \/ str_upper name = "MODERATE" \/
  str_upper name = "DIFFICULT".

(** What a strategy name stands for: a difficulty tier when its upper-case
    form is the name of the tier, or else the member of the enumeration with
    exactly that name. *)
Inductive resolves_to : string -> AttackStrategy -> Prop :=
| resolves_easy name :
    str_upper name = "EASY" -> resolves_to name AttackStrategy_EASY
| resolves_moderate name :
    str_upper name = "MODERATE" -> resolves_to name AttackStrategy_MODERATE
| resolves_difficult name :
    str_upper name = "DIFFICULT" -> resolves_to name AttackStrategy_DIFFICULT
| resolves_member name member :
    ~ names_tier name -> AttackStrategy_attr name = Some member ->
    resolves_to name member.

Definition unknown_strategy (name : string) : Prop :=
  ~ names_tier name /\ AttackStrategy_attr name = None.

End StrategyNames.

(** *** The custom seed prompts *)

(** A custom-prompts path is configured and exists in the file system. *)
Definition custom_prompts_available (fs : gmap string fs_entry)
    (custom_prompts_path : option string) : Prop :=
  exists path, custom_prompts_path = Some path /\ path <> "" /\
               os_path_exists fs path = true.

(** A decision procedure for [mentions]. *)
Fixpoint occurs (name msg : string) : bool :=
  String.prefix name msg ||
  match msg with
  | EmptyString => false
  | String _ rest => occurs name rest
  end.

(** The reply envelope with one assistant message. *)
Definition assistant_reply (content : string) : gmap string (list (gmap string pyval)) :=
  {[ "messages" := [ {[ "content" := PyStr content; "role" := PyStr "assistant" ]} ] ]}.

(** *** The agent section of the configuration *)

(** The value [create_mcs_agent_config] reads the four fields from. *)
Definition agent_section (config_data : gmap string pyval) : pyval :=
  dict_get_default config_data "mcs_agent" (PyDict ∅).

Definition agent_fields : list string :=
  ["tenant_id"; "app_client_id"; "environment_id"; "agent_identifier"].

(** The dictionary [d] holds the four fields of [config], each of them a
    value that counts as true. *)
Definition complete_section (d : gmap string pyval) (config : McsAgentConfig) : Prop :=
  (d !! "tenant_id" = Some (tenant_id config) /\ truthy (tenant_id config) = true) /\
  (d !! "app_client_id" = Some (app_client_id config) /\
   truthy (app_client_id config) = true) /\
  (d !! "environment_id" = Some (environment_id config) /\
   truthy (environment_id config) = true) /\
  (d !! "agent_identifier" = Some (agent_identifier config) /\
   truthy (agent_identifier config) = true).

(** *** Texts without a dollar sign *)

Definition no_dollar (s : string) : Prop :=
  ~ In "$"%char (list_ascii_of_string s).

End Spec.

(** ** Sample collaborators, for concrete runs *)

Module Sample.
Import McsAgentCallback RedTeamScan.

(** A session client whose constructors and session opening succeed and
    whose answer to every question is [outcome]. *)
Definition scripted (outcome : result (list Activity)) : CopilotStudioClient := {|
  ConnectionSettings := unit;
  Client := unit;
  McsConnectionSettings := fun _ _ _ _ => Ok tt;
  McsCopilotClient := fun _ => Ok tt;
  start_conversation_async := fun _ => Ok tt;
  ask_question_async := fun _ _ => outcome;
|}.

Definition target : McsAgentCallbackTarget := {|
  mcs_agent_config := {|
    tenant_id := PyStr "tenant"; app_client_id := PyStr "client";
    environment_id := PyStr "env"; agent_identifier := PyStr "agent" |} |}.

Definition hello : list Message := [ {| role := "user"; content := "Hello" |} ].

Definition message (t : string) : Activity := {| type := "message"; text := Some t |}.
Definition typing : Activity := {| type := "typing"; text := None |}.

(** A process environment. *)
Definition environ : gmap string string := {[ "HOST" := "example.org"; "PORT" := "80" ]}.

(** The case mapping of ASCII text. *)
Definition unicode : CaseMapping := {|
  str_upper := ascii_upper;
  str_upper_ascii := fun s _ => eq_refl;
|}.

(** An engine with a small vocabulary. *)
Inductive strategy : Type := EASY | MODERATE | DIFFICULT | Flip | Base64.
Inductive risk : Type := Violence | HateUnfairness.

Definition strategy_attr (name : string) : option strategy :=
  if String.eqb name "EASY" then Some EASY
  else if String.eqb name "MODERATE" then Some MODERATE
  else if String.eqb name "DIFFICULT" then Some DIFFICULT
  else if String.eqb name "Flip" then Some Flip
  else if String.eqb name "Base64" then Some Base64
  else None.

Definition risk_attr (name : string) : option risk :=
  if String.eqb name "Violence" then Some Violence
  else if String.eqb name "HateUnfairness" then Some HateUnfairness
  else None.

Definition engine : Engine := {|
  RiskCategory := risk;
  AttackStrategy := strategy;
  RiskCategory_attr := risk_attr;
  AttackStrategy_attr := strategy_attr;
  AttackStrategy_EASY := EASY;
  AttackStrategy_MODERATE := MODERATE;
  AttackStrategy_DIFFICULT := DIFFICULT;
  Credential := unit;
  DefaultAzureCredential := tt;
|}.

End Sample.

(** ** Facts about strings *)

Lemma append_cons (c : ascii) (s t : string) : String c s +:+ t = String c (s +:+ t).
Proof. reflexivity. Qed.

Lemma append_empty_r (s : string) : s +:+ "" = s.
Proof.
  induction s as [|c s IH]; [reflexivity|]. now rewrite append_cons, IH.
Qed.

Lemma append_assoc (s1 s2 s3 : string) : (s1 +:+ s2) +:+ s3 = s1 +:+ (s2 +:+ s3).
Proof.
  induction s1 as [|c s1 IH]; [reflexivity|]. now rewrite !append_cons, IH.
Qed.

Lemma length_append (s1 s2 : string) :
  String.length (s1 +:+ s2) = String.length s1 + String.length s2.
Proof.
  induction s1 as [|c s1 IH]; [reflexivity|]. rewrite append_cons. simpl. now rewrite IH.
Qed.

(** ** The callback target: properties *)

Import McsAgentCallback RedTeamScan Spec.

Section AdapterFacts.
Context `{backend : CopilotStudioClient}.

Lemma latest_message_of (messages : list Message) (m : Message) :
  last messages = Some m ->
  (last_turn ← list_last
     ((fun message => ({[ "role" := role message; "content" := content message ]}
                       : gmap string string)) <$> messages);
   getitem last_turn "content") = Ok (content m).
Proof.
  intros Hlast. unfold list_last. rewrite fmap_last, Hlast. simpl.
  unfold getitem. rewrite lookup_insert_ne by discriminate.
  now rewrite lookup_singleton_eq.
Qed.

Lemma callback_nonempty (self : McsAgentCallbackTarget) messages m :
  last messages = Some m ->
  mcs_agent_callback self messages =
    (formatted_response ← try_except (guarded_region self (content m)) error_handler;
     formatted_response ← null_guard formatted_response;
     mret {[ "messages" := [formatted_response] ]}).
Proof.
  intros Hlast. unfold mcs_agent_callback.
  rewrite (latest_message_of _ _ Hlast). unfold lift. simpl.
  destruct (try_except _ _) as [out [fr|e]]; simpl; [|reflexivity].
  destruct (null_guard fr) as [out' [fr'|e']]; reflexivity.
Qed.

Lemma guarded_region_raises (self : McsAgentCallbackTarget) question e :
  step_raises self question e -> guarded_region self question = ([], Raise e).
Proof.
  unfold guarded_region, lift.
  destruct 1 as [H1|? H1 H2|? ? H1 H2 H3|? ? ? H1 H2 H3 H4|? ? ? ? H1 H2 H3 H4 H5];
    unfold settings_of in H1; rewrite H1; simpl; try reflexivity;
    rewrite H2; simpl; try reflexivity;
    rewrite H3; simpl; try reflexivity;
    rewrite H4; simpl; try reflexivity;
    rewrite H5; reflexivity.
Qed.

Lemma guarded_region_answers (self : McsAgentCallbackTarget) question activities joined :
  backend_answers self question activities ->
  join (message_texts activities) = Ok joined ->
  guarded_region self question =
    if String.eqb joined ""
    then (["Warning: MCS Agent returned None or empty content, using default message"],
          Ok {[ "content" := PyStr "I cannot provide a response to this request.";
                "role" := PyStr "assistant" ]})
    else ([], Ok {[ "content" := PyStr joined; "role" := PyStr "assistant" ]}).
Proof.
  intros [settings client session H1 H2 H3 H4] H5.
  unfold guarded_region, lift. unfold settings_of in H1.
  rewrite H1; simpl. rewrite H2; simpl. rewrite H3; simpl. rewrite H4; simpl.
  rewrite H5; simpl. destruct (String.eqb joined ""); reflexivity.
Qed.

Lemma guarded_region_cases (self : McsAgentCallbackTarget) question :
  (exists e, step_raises self question e) \/
  (exists activities joined,
      backend_answers self question activities /\
      join (message_texts activities) = Ok joined).
Proof.
  destruct (settings_of self) as [settings|e] eqn:H1;
    [|left; exists e; now apply settings_raise].
  destruct (McsCopilotClient settings) as [client|e] eqn:H2;
    [|left; exists e; now apply client_raise with settings].
  destruct (start_conversation_async client) as [session|e] eqn:H3;
    [|left; exists e; now apply session_raise with settings client].
  destruct (ask_question_async session question) as [activities|e] eqn:H4;
    [|left; exists e; now apply ask_raise with settings client session].
  destruct (join (message_texts activities)) as [joined|e] eqn:H5;
    [|left; exists e; now apply extract_raise with settings client session activities].
  right. exists activities, joined. split; [|assumption].
  now apply answers with settings client session.
Qed.

(** Joining texts that are all strings concatenates them in order. *)
Lemma join_from_strings (texts : list string) (i : nat) :
  join_from i (Some <$> texts) = Ok (String.concat "" texts).
Proof.
  revert i. induction texts as [|t rest IH]; intros i; [reflexivity|].
  cbn [fmap list_fmap join_from]. change (list_fmap _ _ Some rest) with (Some <$> rest).
  rewrite IH. cbn. destruct rest; [|reflexivity].
  cbn. now rewrite append_empty_r.
Qed.

(** The content of a formatted response with a string content passes the
    final guard. *)
Lemma null_guard_string (s : string) :
  null_guard ({[ "content" := PyStr s; "role" := PyStr "assistant" ]} : gmap string pyval)
  = ([], Ok {[ "content" := PyStr s; "role" := PyStr "assistant" ]}).
Proof.
  unfold null_guard, dict_get. now rewrite lookup_insert_eq.
Qed.

End AdapterFacts.

Lemma content_of_assistant_reply (s : string) :
  content_of (assistant_reply s) = Some (PyStr s).
Proof.
  unfold content_of, assistant_reply. rewrite lookup_singleton_eq.
  apply lookup_insert_eq.
Qed.

Lemma returned_reply {A} (out1 out2 : list string) (r1 r2 : A) :
  (out1, Ok r1) = (out2, Ok r2) -> out1 = out2 /\ r1 = r2.
Proof. intros [= -> ->]. now split. Qed.

Section AdapterClaims.
Context `{backend : CopilotStudioClient}.

(** What the callback returns once the guarded region has produced a
    formatted response with a string content. *)
Lemma callback_with_content (self : McsAgentCallbackTarget) messages m out s :
  last messages = Some m ->
  try_except (guarded_region self (content m)) error_handler =
    (out, Ok {[ "content" := PyStr s; "role" := PyStr "assistant" ]}) ->
  mcs_agent_callback self messages = (out, Ok (assistant_reply s)).
Proof.
  intros Hlast Htry. rewrite (callback_nonempty _ _ _ Hlast), Htry.
  cbn [mbind io_bind]. rewrite null_guard_string. cbn.
  now rewrite !app_nil_r.
Qed.

(** A call on a non-empty sequence of turns in which a step raises: the
    handler answers for an exception deriving from [Exception], and any
    other signal passes through. *)
Lemma callback_on_raise (self : McsAgentCallbackTarget) messages m e :
  last messages = Some m ->
  step_raises self (content m) e ->
  mcs_agent_callback self messages =
    if isinstance_Exception e
    then (["Error calling Microsoft Copilot Studio Agent: " +:+ str_exc e],
          Ok (assistant_reply "I encountered an error and couldn't process your request."))
    else ([], Raise e).
Proof.
  intros Hlast Hstep. destruct (isinstance_Exception e) eqn:Hexc.
  - apply callback_with_content with m; [assumption|].
    rewrite (guarded_region_raises _ _ _ Hstep). unfold try_except. now rewrite Hexc.
  - rewrite (callback_nonempty _ _ _ Hlast), (guarded_region_raises _ _ _ Hstep).
    unfold try_except. now rewrite Hexc.
Qed.

(** A call on a non-empty sequence of turns that the session answers. *)
Lemma callback_on_answer (self : McsAgentCallbackTarget) messages m activities joined :
  last messages = Some m ->
  backend_answers self (content m) activities ->
  join (message_texts activities) = Ok joined ->
  mcs_agent_callback self messages =
    if String.eqb joined ""
    then (["Warning: MCS Agent returned None or empty content, using default message"],
          Ok (assistant_reply "I cannot provide a response to this request."))
    else ([], Ok (assistant_reply joined)).
Proof.
  intros Hlast Hans Hjoin.
  destruct (String.eqb joined "") eqn:Hempty;
    (apply callback_with_content with m; [assumption|]);
    rewrite (guarded_region_answers _ _ _ _ Hans Hjoin), Hempty; reflexivity.
Qed.

Lemma join_message_texts (activities : list Activity) (texts : list string) :
  text <$> filter (fun a => type a = "message") activities = Some <$> texts ->
  join (message_texts activities) = Ok (String.concat "" texts).
Proof.
  intros Htexts. unfold join, message_texts, ActivityTypes_message.
  rewrite Htexts. apply join_from_strings.
Qed.

(** C1. On a non-empty sequence of turns, if a step of the guarded region
    (building the connection settings, creating the client, opening the
    session, asking the question, joining the response texts) raises an
    error, that is an exception deriving from [Exception], the call returns
    the envelope with the assistant message "I encountered an error and
    couldn't process your request." and raises nothing; the one line printed
    describes the error. *)
Theorem C1_error_is_contained (self : McsAgentCallbackTarget) messages m e :
  last messages = Some m ->
  step_raises self (content m) e ->
  isinstance_Exception e = true ->
  mcs_agent_callback self messages =
    (["Error calling Microsoft Copilot Studio Agent: " +:+ str_exc e],
     Ok (assistant_reply "I encountered an error and couldn't process your request.")).
Proof.
  intros Hlast Hstep Hexc.
  rewrite (callback_on_raise _ _ _ _ Hlast Hstep). now rewrite Hexc.
Qed.

(** C2. On a non-empty sequence of turns, when the session opens and the
    question is answered with events whose message-typed members carry the
    texts [texts], in that order, and their concatenation is not empty, the
    call returns that concatenation as the content of the assistant message,
    and prints nothing. *)
Theorem C2_message_texts_concatenated (self : McsAgentCallbackTarget) messages m
    activities texts :
  last messages = Some m ->
  backend_answers self (content m) activities ->
  text <$> filter (fun a => type a = "message") activities = Some <$> texts ->
  String.concat "" texts <> "" ->
  mcs_agent_callback self messages = ([], Ok (assistant_reply (String.concat "" texts))).
Proof.
  intros Hlast Hans Htexts Hne.
  rewrite (callback_on_answer _ _ _ _ _ Hlast Hans (join_message_texts _ _ Htexts)).
  apply String.eqb_neq in Hne. now rewrite Hne.
Qed.

(** C3. On a non-empty sequence of turns the call returns, whatever the
    session client does, unless a step raises an exception that does not
    derive from [Exception]; and the value it returns is the envelope of one
    message whose content is a string. *)
Theorem C3_content_is_a_string (self : McsAgentCallbackTarget) messages m :
  last messages = Some m ->
  match (mcs_agent_callback self messages).2 with
  | Ok reply =>
      exists formatted_response s,
        reply = {[ "messages" := [formatted_response] ]} /\
        formatted_response !! "content" = Some (PyStr s)
  | Raise e =>
      isinstance_Exception e = false /\ step_raises self (content m) e
  end.
Proof.
  intros Hlast.
  destruct (guarded_region_cases self (content m))
    as [[e Hstep]|(activities & joined & Hans & Hjoin)].
  - rewrite (callback_on_raise _ _ _ _ Hlast Hstep).
    destruct (isinstance_Exception e) eqn:Hexc; simpl.
    + eexists _, _. split; [reflexivity|]. apply lookup_insert_eq.
    + now split.
  - rewrite (callback_on_answer _ _ _ _ _ Hlast Hans Hjoin).
    destruct (String.eqb joined ""); simpl;
      (eexists _, _; split; [reflexivity|]; apply lookup_insert_eq).
Qed.

(** C4. On a non-empty sequence of turns, when the session opens and the
    question is answered with events whose message-typed members carry texts
    that concatenate to the empty string (there may be none), the call
    returns the envelope with the assistant message "I cannot provide a
    response to this request.", after printing a warning. *)
Theorem C4_empty_content_fallback (self : McsAgentCallbackTarget) messages m
    activities texts :
  last messages = Some m ->
  backend_answers self (content m) activities ->
  text <$> filter (fun a => type a = "message") activities = Some <$> texts ->
  String.concat "" texts = "" ->
  mcs_agent_callback self messages =
    (["Warning: MCS Agent returned None or empty content, using default message"],
     Ok (assistant_reply "I cannot provide a response to this request.")).
Proof.
  intros Hlast Hans Htexts Hempty.
  rewrite (callback_on_answer _ _ _ _ _ Hlast Hans (join_message_texts _ _ Htexts)).
  now rewrite Hempty.
Qed.

(** C8. On the empty sequence of turns the call raises [IndexError]: the
    last turn is taken before the [try] begins, so no fallback reply is
    returned, whatever the session client would do. *)
Theorem C8_empty_sequence_raises (self : McsAgentCallbackTarget) :
  mcs_agent_callback self [] = ([], Raise (IndexError "list index out of range")).
Proof. reflexivity. Qed.

(** C9, as amended. On a non-empty sequence of turns the final guard never
    fires: the formatted response that leaves the [try] statement passes
    the guard unchanged and without a warning.  The content returned is "No
    response available." only when that is the concatenation of the texts of
    the message events the session client answered with. *)
Theorem C9_null_guard_never_fires (self : McsAgentCallbackTarget) messages m :
  last messages = Some m ->
  (forall out formatted_response,
      try_except (guarded_region self (content m)) error_handler
        = (out, Ok formatted_response) ->
      null_guard formatted_response = ([], Ok formatted_response)) /\
  (forall out reply,
      mcs_agent_callback self messages = (out, Ok reply) ->
      content_of reply = Some (PyStr "No response available.") ->
      exists activities,
        backend_answers self (content m) activities /\
        join (message_texts activities) = Ok "No response available.").
Proof.
  intros Hlast.
  destruct (guarded_region_cases self (content m))
    as [[e Hstep]|(activities & joined & Hans & Hjoin)]; split.
  - intros out fr. rewrite (guarded_region_raises _ _ _ Hstep). unfold try_except.
    destruct (isinstance_Exception e); [|discriminate].
    intros [= <- <-]. apply null_guard_string.
  - intros out reply. rewrite (callback_on_raise _ _ _ _ Hlast Hstep).
    destruct (isinstance_Exception e); [|discriminate].
    intros [_ <-]%returned_reply. rewrite content_of_assistant_reply. discriminate.
  - intros out fr. rewrite (guarded_region_answers _ _ _ _ Hans Hjoin).
    destruct (String.eqb joined ""); intros [= <- <-]; apply null_guard_string.
  - intros out reply. rewrite (callback_on_answer _ _ _ _ _ Hlast Hans Hjoin).
    destruct (String.eqb joined "") eqn:Hempty.
    + intros [_ <-]%returned_reply. rewrite content_of_assistant_reply. discriminate.
    + intros [_ <-]%returned_reply. rewrite content_of_assistant_reply.
      intros [= ->]. now exists activities.
Qed.

End AdapterClaims.

(** ** Environment-variable substitution: properties *)

Lemma group_then_close_spec (s name : string) :
  group_then_close s = Some name <->
  exists after, s = name +:+ String "}" after /\ no_closing_brace name.
Proof.
  revert name. induction s as [|c s IH]; intros name; simpl.
  - split; [discriminate|]. intros (after & H & _). destruct name; discriminate.
  - destruct (Ascii.eqb_spec c "}") as [->|Hc].
    + split.
      * intros [= <-]. exists s. split; [reflexivity|]. intros [].
      * intros (after & H & Hno). destruct name as [|c' name]; [reflexivity|].
        rewrite append_cons in H. injection H as <- _. exfalso. apply Hno. now left.
    + destruct (group_then_close s) as [n|] eqn:Hg.
      * split.
        -- intros [= <-]. destruct (proj1 (IH n) eq_refl) as (after & -> & Hno).
           exists after. split; [reflexivity|]. intros [H|H]; [congruence|now apply Hno].
        -- intros (after & H & Hno). destruct name as [|c' name].
           ++ injection H as -> _. congruence.
           ++ rewrite append_cons in H. injection H as <- ->.
              assert (Some n = Some name) as [= ->]; [|reflexivity].
              apply IH. exists after. split; [reflexivity|].
              intros Hin. apply Hno. now right.
      * split; [discriminate|]. intros (after & H & Hno). destruct name as [|c' name].
        -- injection H as -> _. congruence.
        -- rewrite append_cons in H. injection H as <- ->.
           assert (None = Some name) as Habs; [|discriminate].
           apply IH. exists after. split; [reflexivity|].
           intros Hin. apply Hno. now right.
Qed.

Lemma match_placeholder_spec (text name : string) :
  match_placeholder text = Some name <->
  exists after, begins_with_placeholder text name after.
Proof.
  unfold match_placeholder, begins_with_placeholder. split.
  - destruct text as [|c1 [|c2 body]]; try discriminate.
    destruct (Ascii.eqb_spec c1 "$") as [->|]; [|discriminate].
    destruct (Ascii.eqb_spec c2 "{") as [->|]; [|discriminate]. simpl.
    destruct (group_then_close body) as [[|c n]|] eqn:Hg; try discriminate.
    intros [= <-]. apply group_then_close_spec in Hg as (after & -> & Hno).
    exists after. split; [|split; [discriminate|assumption]].
    now rewrite <- append_assoc.
  - intros (after & -> & Hne & Hno). rewrite !append_cons. simpl.
    change ("" +:+ name +:+ "}" +:+ after) with (name +:+ String "}" after).
    rewrite (proj2 (group_then_close_spec _ name)) by (exists after; now split).
    destruct name; [congruence|reflexivity].
Qed.

Lemma braces_append (name after : string) :
  ("{" +:+ name +:+ "}") +:+ after = String "{" (name +:+ "}" +:+ after).
Proof.
  change ("{" +:+ name +:+ "}") with (String "{" (name +:+ "}")).
  now rewrite append_cons, append_assoc.
Qed.

Lemma braces_length (name : string) :
  String.length ("{" +:+ name +:+ "}") = String.length name + 2.
Proof.
  change ("{" +:+ name +:+ "}") with (String "{" (name +:+ "}")).
  simpl. rewrite length_append. simpl. lia.
Qed.

Section Substitution.
Variable repl : string -> result string.

(** Passing over the characters of a finished match. *)
Lemma re_sub_from_skip (passed rest : string) :
  re_sub_from (String.length passed) repl (passed +:+ rest) = re_sub_from 0 repl rest.
Proof.
  induction passed as [|c passed IH]; [reflexivity|].
  rewrite append_cons. simpl. exact IH.
Qed.

Lemma re_sub_from_match (c : ascii) (rest name : string) :
  match_placeholder (String c rest) = Some name ->
  re_sub_from 0 repl (String c rest) =
    (value ← repl name;
     tail ← re_sub_from (String.length name + 2) repl rest;
     Ok (value +:+ tail)).
Proof. intros Hmatch. cbn [re_sub_from]. now rewrite Hmatch. Qed.

Lemma re_sub_placeholder (text name after : string) :
  begins_with_placeholder text name after ->
  re_sub repl text =
    (value ← repl name; tail ← re_sub repl after; Ok (value +:+ tail)).
Proof.
  intros Hbegin. unfold re_sub.
  assert (match_placeholder text = Some name) as Hmatch
    by (apply match_placeholder_spec; now exists after).
  destruct Hbegin as (-> & _ & _).
  change ("${" +:+ name +:+ "}" +:+ after)
    with (String "$" (String "{" (name +:+ "}" +:+ after))) in *.
  rewrite (re_sub_from_match _ _ _ Hmatch).
  rewrite <- braces_append, <- braces_length.
  now rewrite re_sub_from_skip.
Qed.

Lemma re_sub_literal (c : ascii) (text : string) :
  (forall name after, ~ begins_with_placeholder (String c text) name after) ->
  re_sub repl (String c text) = (tail ← re_sub repl text; Ok (String c tail)).
Proof.
  intros Hnone. unfold re_sub. cbn [re_sub_from].
  destruct (match_placeholder (String c text)) as [name|] eqn:Hmatch; [|reflexivity].
  apply match_placeholder_spec in Hmatch as [after Hbegin].
  now destruct (Hnone name after).
Qed.

End Substitution.

(** Every text reads as placeholders and literal characters. *)
Lemma segments_total (text : string) : exists segs, segments text segs.
Proof.
  remember (String.length text) as n eqn:Hn.
  revert text Hn. induction n as [n IH] using lt_wf_ind. intros text ->.
  destruct (match_placeholder text) as [name|] eqn:Hmatch.
  - apply match_placeholder_spec in Hmatch as [after Hbegin].
    destruct (IH (String.length after)) with (text := after) as [rest Hrest];
      [|reflexivity|].
    + destruct Hbegin as (-> & _ & _). rewrite !length_append. simpl. lia.
    + exists (Placeholder name :: rest). now apply segments_placeholder with after.
  - destruct text as [|c text]; [exists []; constructor|].
    destruct (IH (String.length text)) with (text := text) as [rest Hrest];
      [simpl; lia|reflexivity|].
    exists (Literal c :: rest). apply segments_literal; [|assumption].
    intros name after Hbegin.
    assert (match_placeholder (String c text) = Some name) as Habs
      by (apply match_placeholder_spec; now exists after).
    congruence.
Qed.

(** A text reads in one way only. *)
Lemma begins_with_placeholder_unique (text name1 after1 name2 after2 : string) :
  begins_with_placeholder text name1 after1 ->
  begins_with_placeholder text name2 after2 ->
  name1 = name2 /\ after1 = after2.
Proof.
  intros H1 H2.
  assert (Some name1 = Some name2) as [= <-].
  { rewrite <- (proj2 (match_placeholder_spec text name1)) by now exists after1.
    apply match_placeholder_spec. now exists after2. }
  split; [reflexivity|].
  destruct H1 as (-> & _ & _), H2 as (Heq & _ & _).
  rewrite <- !append_assoc in Heq. now apply String.app_inj in Heq.
Qed.

Lemma segments_unique (text : string) (segs1 segs2 : list segment) :
  segments text segs1 -> segments text segs2 -> segs1 = segs2.
Proof.
  intros H1. revert segs2.
  induction H1 as [|text name after rest Hbegin _ IH|c text rest Hnone _ IH];
    intros segs2 H2.
  - inversion H2 as [|? name' after' ? Hbegin' _|]; subst; [reflexivity|].
    now destruct Hbegin' as (Habs & _ & _).
  - inversion H2 as [|? name' after' rest' Hbegin' Hrest'|c' text' rest' Hnone' _]; subst.
    + now destruct Hbegin as (Habs & _ & _).
    + destruct (begins_with_placeholder_unique _ _ _ _ _ Hbegin Hbegin') as [<- <-].
      f_equal. now apply IH.
    + now destruct (Hnone' name after).
  - inversion H2 as [|? name' after' rest' Hbegin' _|c' text' rest' _ Hrest']; subst.
    + now destruct (Hnone name' after').
    + f_equal. now apply IH.
Qed.

(** The segments of a text spell the text. *)
Lemma segments_render (text : string) (segs : list segment) :
  segments text segs -> render segs = text.
Proof.
  induction 1 as [|text name after rest (-> & _ & _) _ IH|c text rest _ _ IH]; simpl.
  - reflexivity.
  - rewrite IH. now rewrite !append_assoc.
  - now rewrite IH.
Qed.

(** The result of the substitution, read off the segments of the text. *)
Lemma substitute_env_vars_segments (environ : gmap string string) text segs :
  segments text segs ->
  substitute_env_vars environ text =
    match first_unset environ (names segs) with
    | Some name => Raise (ValueError ("Environment variable '" +:+ name +:+ "' not found"))
    | None => Ok (expand environ segs)
    end.
Proof.
  unfold substitute_env_vars.
  induction 1 as [|text name after rest Hbegin _ IH|c text rest Hnone _ IH].
  - reflexivity.
  - rewrite (re_sub_placeholder _ _ _ _ Hbegin), IH.
    unfold replace_func. cbn [names omap list_omap first_unset List.find expand foldr expand_segment].
    destruct (os_getenv environ name) as [value|]; [|reflexivity].
    cbn. fold (names rest). fold (first_unset environ (names rest)).
    destruct (first_unset environ (names rest)); reflexivity.
  - rewrite (re_sub_literal _ _ _ Hnone), IH.
    cbn [names omap list_omap expand foldr expand_segment]. fold (names rest).
    destruct (first_unset environ (names rest)); reflexivity.
Qed.

Lemma first_unset_Some (environ : gmap string string) (vars : list string) name :
  first_unset environ vars = Some name ->
  os_getenv environ name = None /\
  exists before later,
    vars = before ++ name :: later /\
    Forall (fun var => is_Some (os_getenv environ var)) before.
Proof.
  unfold first_unset. induction vars as [|var vars IH]; simpl; [discriminate|].
  destruct (os_getenv environ var) as [value|] eqn:Hvar.
  - intros Hfind. destruct (IH Hfind) as (Hname & before & later & -> & Hbefore).
    split; [assumption|]. exists (var :: before), later. split; [reflexivity|].
    constructor; [now rewrite Hvar|assumption].
  - intros [= <-]. split; [assumption|]. exists [], vars. split; [reflexivity|constructor].
Qed.

Lemma first_unset_None (environ : gmap string string) (vars : list string) :
  first_unset environ vars = None ->
  Forall (fun var => is_Some (os_getenv environ var)) vars.
Proof.
  unfold first_unset. induction vars as [|var vars IH]; simpl; [constructor|].
  destruct (os_getenv environ var) as [value|] eqn:Hvar; [|discriminate].
  intros Hfind. constructor; [now rewrite Hvar|now apply IH].
Qed.

Lemma prefix_append (s t : string) : String.prefix s (s +:+ t) = true.
Proof.
  induction s as [|c s IH]; [now destruct t|].
  rewrite append_cons. simpl. now destruct (ascii_dec c c).
Qed.

Lemma mentions_occurs (msg name : string) : mentions msg name -> occurs name msg = true.
Proof.
  intros (before & after & ->). induction before as [|c before IH].
  - change ("" +:+ name +:+ after) with (name +:+ after).
    pose proof (prefix_append name after) as Hprefix.
    destruct (name +:+ after); cbn [occurs]; now rewrite Hprefix.
  - rewrite append_cons. cbn [occurs]. rewrite IH. apply orb_true_r.
Qed.

Lemma segments_host_port :
  segments "${HOST}:${PORT}" [Placeholder "HOST"; Literal ":"; Placeholder "PORT"].
Proof.
  apply segments_placeholder with ":${PORT}".
  { repeat split; [discriminate|]. intros H. simpl in H. intuition discriminate. }
  apply segments_literal.
  { intros name after Hbegin.
    assert (match_placeholder ":${PORT}" = Some name) as Habs
      by (apply match_placeholder_spec; now exists after).
    discriminate. }
  apply segments_placeholder with "".
  { repeat split; [discriminate|]. intros H. simpl in H. intuition discriminate. }
  constructor.
Qed.

Section ConfigClaims.
Variable json_loads : string -> result pyval.

Lemma load_config_file (fs : gmap string fs_entry) environ path text :
  fs !! path = Some (File text) ->
  load_config json_loads fs environ path =
    (processed_content ← substitute_env_vars environ text; json_loads processed_content).
Proof.
  intros Hfile. unfold load_config, os_path_exists, read_text. now rewrite Hfile.
Qed.

(** C5, as amended. A configuration text reads, from the left and in one
    way only, as placeholders and literal characters.  If some placeholder names a
    variable the environment does not define, the substitution fails with
    the error "Environment variable 'X' not found" where X is the leftmost
    such placeholder, and returns no text; so does loading the file.  If
    every placeholder is defined, the substitution returns the text with
    each placeholder replaced by the value of its variable, as it is, and
    loading the file parses that text as JSON. *)
Theorem C5_substitution_all_or_nothing (fs : gmap string fs_entry)
    (environ : gmap string string) (path text : string) :
  (exists segs, segments text segs /\ forall segs', segments text segs' -> segs' = segs) /\
  forall segs, segments text segs ->
    render segs = text /\
    match first_unset environ (names segs) with
    | Some name =>
        let error := ValueError ("Environment variable '" +:+ name +:+ "' not found") in
        os_getenv environ name = None /\
        (exists before later,
            names segs = before ++ name :: later /\
            Forall (fun var => is_Some (os_getenv environ var)) before) /\
        substitute_env_vars environ text = Raise error /\
        (fs !! path = Some (File text) ->
         load_config json_loads fs environ path = Raise error)
    | None =>
        Forall (fun var => is_Some (os_getenv environ var)) (names segs) /\
        substitute_env_vars environ text = Ok (expand environ segs) /\
        (fs !! path = Some (File text) ->
         load_config json_loads fs environ path = json_loads (expand environ segs))
    end.
Proof.
  split.
  { destruct (segments_total text) as [segs Hsegs]. exists segs.
    split; [assumption|]. intros segs' Hsegs'. now apply segments_unique with text. }
  intros segs Hsegs. split; [now apply segments_render|].
  pose proof (substitute_env_vars_segments environ _ _ Hsegs) as Hsub.
  destruct (first_unset environ (names segs)) as [name|] eqn:Hfirst.
  - destruct (first_unset_Some _ _ _ Hfirst) as [Hname Hsplit].
    cbv zeta. repeat split; try assumption.
    intros Hfile. now rewrite (load_config_file _ _ _ _ Hfile), Hsub.
  - repeat split; [now apply first_unset_None|assumption|].
    intros Hfile. now rewrite (load_config_file _ _ _ _ Hfile), Hsub.
Qed.

End ConfigClaims.

(** C5, as stated, fails where two placeholders are undefined: the text
    [${HOST}:${PORT}] holds the placeholder [PORT], the empty environment
    does not define it, and the error names [HOST] and does not mention
    [PORT]. *)
Lemma C5_later_placeholder_not_named :
  segments "${HOST}:${PORT}" [Placeholder "HOST"; Literal ":"; Placeholder "PORT"] /\
  In "PORT" (names [Placeholder "HOST"; Literal ":"; Placeholder "PORT"]) /\
  os_getenv ∅ "PORT" = None /\
  substitute_env_vars ∅ "${HOST}:${PORT}"
    = Raise (ValueError "Environment variable 'HOST' not found") /\
  ~ mentions "Environment variable 'HOST' not found" "PORT".
Proof.
  split; [apply segments_host_port|]. split; [simpl; tauto|].
  split; [reflexivity|]. split; [reflexivity|].
  intros H%mentions_occurs. vm_compute in H. discriminate.
Qed.

(** ** Attack strategies: properties *)

(** Folding a character gives a capital letter exactly for that letter in
    either case. *)
Lemma upper_ascii_capital (c d : ascii) :
  capital d -> upper_ascii c = d <-> same_letter c d.
Proof.
  unfold capital, same_letter, upper_ascii. intros Hd.
  pose proof (nat_ascii_bounded c) as Hc.
  destruct ((97 <=? nat_of_ascii c)%nat && (nat_of_ascii c <=? 122)%nat) eqn:Hsmall.
  - apply andb_prop in Hsmall as [Hlo%Nat.leb_le Hhi%Nat.leb_le]. split.
    + intros <-. right. left. split; [assumption|].
      rewrite nat_ascii_embedding by lia. lia.
    + intros [<-|[[_ Heq]|[Hcap Heq]]]; [lia| |unfold capital in Hcap; lia].
      replace (nat_of_ascii c - 32) with (nat_of_ascii d) by lia.
      apply ascii_nat_embedding.
  - split; [now left|]. intros [?|[[_ Heq]|[Hcap Heq]]].
    + assumption.
    + exfalso. apply andb_false_iff in Hsmall as [Hlo%Nat.leb_gt|Hhi%Nat.leb_gt]; lia.
    + exfalso. unfold capital in Hcap. lia.
Qed.

(** Folding a text gives a text of capital letters exactly for the texts
    equal to it up to case. *)
Lemma ascii_upper_capitals (s t : string) :
  Forall capital (list_ascii_of_string t) ->
  ascii_upper s = t <-> equal_ignoring_case s t.
Proof.
  revert t. induction s as [|c s IH]; intros [|d t] Hcap; simpl;
    try (split; [discriminate|contradiction]); [tauto|].
  inversion Hcap as [|? ? Hd Ht]; subst. split.
  - intros [= Hc Hs]. split; [now apply upper_ascii_capital|now apply IH].
  - intros [Hc Hs]. f_equal; [now apply upper_ascii_capital|now apply IH].
Qed.

Section StrategyClaims.
Context `{engine : Engine} `{unicode : CaseMapping}.

(** For an ASCII name, the test for a tier is equality up to case. *)
Lemma tier_test_ascii (name tier : string) :
  is_ascii name -> In tier tier_names ->
  str_upper name = tier <-> equal_ignoring_case name tier.
Proof.
  intros Hascii Htier. rewrite (str_upper_ascii _ Hascii).
  apply ascii_upper_capitals.
  destruct Htier as [<-|[<-|[<-|[]]]]; repeat constructor; vm_compute; intuition discriminate.
Qed.

(** What one turn of the loop does with a name. *)
Lemma append_strategy_spec (attack_strategies : list AttackStrategy) (name : string) :
  (exists member,
      resolves_to name member /\
      append_strategy attack_strategies name = Ok (attack_strategies ++ [member])) \/
  (unknown_strategy name /\
   append_strategy attack_strategies name =
     Raise (AttributeError "type object 'AttackStrategy'" name)).
Proof.
  unfold append_strategy.
  destruct (String.eqb_spec (str_upper name) "EASY") as [He|He];
    [left; eexists; split; [now apply resolves_easy|reflexivity]|].
  destruct (String.eqb_spec (str_upper name) "MODERATE") as [Hm|Hm];
    [left; eexists; split; [now apply resolves_moderate|reflexivity]|].
  destruct (String.eqb_spec (str_upper name) "DIFFICULT") as [Hd|Hd];
    [left; eexists; split; [now apply resolves_difficult|reflexivity]|].
  assert (~ names_tier name) as Hnot by (intros [H|[H|H]]; contradiction).
  unfold getattr. destruct (AttackStrategy_attr name) as [member|] eqn:Hattr.
  - left. exists member. split; [now apply resolves_member|reflexivity].
  - right. now split.
Qed.

Lemma tiers_differ (name : string) :
  (str_upper name = "EASY" -> str_upper name = "MODERATE" -> False) /\
  (str_upper name = "EASY" -> str_upper name = "DIFFICULT" -> False) /\
  (str_upper name = "MODERATE" -> str_upper name = "DIFFICULT" -> False).
Proof.
  repeat split; intros H1 H2; rewrite H1 in H2; discriminate.
Qed.

Lemma resolves_to_functional (name : string) (m1 m2 : AttackStrategy) :
  resolves_to name m1 -> resolves_to name m2 -> m1 = m2.
Proof.
  destruct (tiers_differ name) as (Hem & Hed & Hmd).
  intros H1 H2. destruct H1 as [? H1|? H1|? H1|? ? Hn1 H1];
    destruct H2 as [? H2|? H2|? H2|? ? Hn2 H2];
    try reflexivity; try (exfalso; eauto; fail);
    try (exfalso; apply Hn1; unfold names_tier; tauto);
    try (exfalso; apply Hn2; unfold names_tier; tauto).
  congruence.
Qed.

Lemma resolves_to_known (name : string) (member : AttackStrategy) :
  resolves_to name member -> ~ unknown_strategy name.
Proof.
  intros Hres [Hnot Hattr]. destruct Hres as [? H|? H|? H|? ? _ H];
    try (apply Hnot; unfold names_tier; tauto).
  congruence.
Qed.

(** The loop, from any list of strategies already collected. *)
Lemma for_loop_append_strategy (names : list string) (collected : list AttackStrategy) :
  match for_loop names append_strategy collected with
  | Ok strategies =>
      exists members, strategies = collected ++ members /\ Forall2 resolves_to names members
  | Raise e =>
      exists before name later members,
        names = before ++ name :: later /\
        Forall2 resolves_to before members /\
        unknown_strategy name /\
        e = AttributeError "type object 'AttackStrategy'" name
  end.
Proof.
  revert collected. induction names as [|name names IH]; intros collected.
  - simpl. exists []. split; [now rewrite app_nil_r|constructor].
  - cbn [for_loop].
    destruct (append_strategy_spec collected name)
      as [(member & Hres & ->)|[Hunknown ->]]; cbn [mbind result_bind].
    + specialize (IH (collected ++ [member])).
      destruct (for_loop names append_strategy (collected ++ [member])) as [strategies|e].
      * destruct IH as (members & -> & Hall). exists (member :: members).
        split; [now rewrite <- app_assoc|now constructor].
      * destruct IH as (before & bad & later & members & -> & Hall & Hbad & ->).
        exists (name :: before), bad, later, (member :: members).
        split; [reflexivity|]. split; [now constructor|]. now split.
    + exists [], name, names, []. split; [reflexivity|]. split; [constructor|]. now split.
Qed.

(** The first name that stands for nothing is determined by the list. *)
Lemma first_unknown_unique (before before' : list string) name name' later later'
    (members members' : list AttackStrategy) :
  before ++ name :: later = before' ++ name' :: later' ->
  Forall2 resolves_to before members -> unknown_strategy name ->
  Forall2 resolves_to before' members' -> unknown_strategy name' ->
  name = name'.
Proof.
  intros Heq Hall. revert before' members' Heq.
  induction Hall as [|x member before members Hres _ IH];
    intros [|x' before'] members' Heq Hbad Hall' Hbad'; simpl in Heq.
  - congruence.
  - injection Heq as -> _. inversion Hall' as [|? member' ? ? Hres' _]; subst.
    now destruct (resolves_to_known _ _ Hres').
  - injection Heq as -> _. now destruct (resolves_to_known _ _ Hres).
  - injection Heq as -> Heq. inversion Hall' as [|? member' ? ? _ Hrest]; subst.
    now apply (IH before' _ Heq Hbad Hrest).
Qed.

Lemma Forall2_resolves_to_functional (names : list string)
    (l1 l2 : list AttackStrategy) :
  Forall2 resolves_to names l1 -> Forall2 resolves_to names l2 -> l1 = l2.
Proof.
  intros H1. revert l2. induction H1 as [|name m1 names l1 Hres _ IH]; intros l2 H2.
  - now inversion H2.
  - inversion H2 as [|? m2 ? l2' Hres2 Hrest]; subst.
    f_equal; [now apply resolves_to_functional with name|now apply IH].
Qed.

(** C6, as amended. Parsing a list of strategy names resolves each name in
    order: a name whose upper-case form, as [str.upper()] gives it, is EASY,
    MODERATE or DIFFICULT stands for that tier, any other name for the
    member of the enumeration with exactly that name; the result is the list
    of what the names stand for.  Parsing fails exactly when some name
    stands for nothing, with the [AttributeError] that names the first such
    name of the list.  For a name of ASCII characters the upper-case form is
    the name of a tier exactly when the name equals it up to the case of
    its letters.  With an enumeration that has the member [Flip], the names
    easy, Flip parse to the tier EASY followed by [Flip]. *)
Theorem C6_strategy_names_resolved (strategy_strings : list string) :
  (forall strategies,
      parse_attack_strategies strategy_strings = Ok strategies <->
      Forall2 resolves_to strategy_strings strategies) /\
  (forall e,
      parse_attack_strategies strategy_strings = Raise e <->
      exists before name later members,
        strategy_strings = before ++ name :: later /\
        Forall2 resolves_to before members /\
        unknown_strategy name /\
        e = AttributeError "type object 'AttackStrategy'" name) /\
  (forall name tier,
      is_ascii name -> In tier tier_names ->
      str_upper name = tier <-> equal_ignoring_case name tier) /\
  (forall flip,
      AttackStrategy_attr "Flip" = Some flip ->
      parse_attack_strategies ["easy"; "Flip"] = Ok [AttackStrategy_EASY; flip]).
Proof.
  unfold parse_attack_strategies.
  pose proof (for_loop_append_strategy strategy_strings []) as Hloop.
  split; [|split; [|split; [apply tier_test_ascii|]]].
  - intros strategies. split.
    + intros Hparse. rewrite Hparse in Hloop. now destruct Hloop as (members & -> & Hall).
    + intros Hall. destruct (for_loop strategy_strings append_strategy []) as [out|e].
      * destruct Hloop as (members & -> & Hall'). f_equal.
        now apply Forall2_resolves_to_functional with strategy_strings.
      * destruct Hloop as (before & name & later & members & -> & _ & Hbad & _).
        apply Forall2_app_inv_l in Hall as (l1 & l2 & _ & Hall & _).
        inversion Hall as [|? member ? ? Hres _]; subst.
        now destruct (resolves_to_known _ _ Hres).
  - intros e. split.
    + intros Hparse. now rewrite Hparse in Hloop.
    + intros (before & name & later & members & -> & Hbefore & Hbad & ->).
      destruct (for_loop (before ++ name :: later) append_strategy []) as [out|e].
      * destruct Hloop as (members' & _ & Hall).
        apply Forall2_app_inv_l in Hall as (l1 & l2 & _ & Hall & _).
        inversion Hall as [|? member ? ? Hres _]; subst.
        now destruct (resolves_to_known _ _ Hres).
      * destruct Hloop as (before' & name' & later' & members' & Heq & Hbefore' & Hbad' & ->).
        do 2 f_equal. symmetry.
        now apply (first_unknown_unique _ _ _ _ _ _ _ _ Heq Hbefore Hbad Hbefore' Hbad').
  - intros flip Hflip. unfold for_loop, append_strategy.
    rewrite (str_upper_ascii "easy"), (str_upper_ascii "Flip") by reflexivity.
    simpl. unfold getattr. now rewrite Hflip.
Qed.

End StrategyClaims.

(** C6, as stated, fails on a list with two names that stand for nothing:
    in the sample vocabulary neither Foo nor Bar is a tier or a member, and
    parsing the list Foo, Bar fails with the error that names Foo and does
    not mention Bar. *)
Lemma C6_later_name_not_named :
  unknown_strategy (engine := Sample.engine) (unicode := Sample.unicode) "Bar" /\
  In "Bar" ["Foo"; "Bar"] /\
  parse_attack_strategies (engine := Sample.engine) (unicode := Sample.unicode)
    ["Foo"; "Bar"]
    = Raise (AttributeError "type object 'AttackStrategy'" "Foo") /\
  ~ mentions (str_exc (AttributeError "type object 'AttackStrategy'" "Foo")) "Bar".
Proof.
  split; [|split; [|split]].
  - split; [|reflexivity]. intros [H|[H|H]]; discriminate.
  - simpl. tauto.
  - reflexivity.
  - intros H%mentions_occurs. vm_compute in H. discriminate.
Qed.

(** ** The engine instance and the target: properties *)

Section EngineClaims.
Context `{engine : Engine}.

(** C7. The engine instance is built in exactly one of two ways.  When a
    custom-prompts path is given, is not empty and exists in the file
    system, the constructor receives the path as the custom seed prompts,
    and neither risk categories nor an objective count.  Otherwise it
    receives the risk categories and the objective count, and no custom
    seed prompts. *)
Theorem C7_one_of_two_modes (fs : gmap string fs_entry) (project_endpoint : string)
    (categories : list RiskCategory) (objectives : Z) (custom_prompts_path : option string) :
  (custom_prompts_available fs custom_prompts_path /\
   create_red_team fs project_endpoint categories objectives custom_prompts_path =
     (["Using custom prompts from: " +:+ default "" custom_prompts_path],
      Ok {| azure_ai_project := project_endpoint;
            credential := DefaultAzureCredential;
            risk_categories := None;
            num_objectives := None;
            custom_attack_seed_prompts := custom_prompts_path |})) \/
  (~ custom_prompts_available fs custom_prompts_path /\
   create_red_team fs project_endpoint categories objectives custom_prompts_path =
     (["Using standard risk categories with " +:+ pretty objectives +:+ " objectives"],
      Ok {| azure_ai_project := project_endpoint;
            credential := DefaultAzureCredential;
            risk_categories := Some categories;
            num_objectives := Some objectives;
            custom_attack_seed_prompts := None |})).
Proof.
  unfold custom_prompts_available, create_red_team.
  destruct (use_custom_prompts fs custom_prompts_path) eqn:Huse; [left|right].
  - split; [|reflexivity]. unfold use_custom_prompts in Huse.
    destruct custom_prompts_path as [path|]; [|discriminate].
    apply andb_prop in Huse as [Hne Hex]. exists path.
    split; [reflexivity|]. split; [|assumption].
    intros ->. discriminate.
  - split; [|reflexivity]. intros (path & -> & Hne & Hex).
    unfold use_custom_prompts in Huse. rewrite Hex in Huse.
    apply String.eqb_neq in Hne. now rewrite Hne in Huse.
Qed.

End EngineClaims.

Section TargetClaims.
Context `{backend : CopilotStudioClient}.

Lemma falsy_field (mcs_config : gmap string pyval) (field : string) :
  mcs_config !! field = None \/ mcs_config !! field = Some (PyStr "") ->
  truthy (dict_get mcs_config field) = false.
Proof. unfold dict_get. now intros [->| ->]. Qed.

(** C10, as amended. When the [mcs_agent] section of the configuration is a
    dictionary (or is left out) in which one of the four fields is absent or
    is the empty string, [create_mcs_agent_config] returns [None], and
    creating the target of type [mcs_agent_callback] with what it returned
    raises [ValueError] and builds no callback. *)
Theorem C10_incomplete_agent_section (config_data mcs_config : gmap string pyval)
    (field : string) :
  dict_get_default config_data "mcs_agent" (PyDict ∅) = PyDict mcs_config ->
  In field ["tenant_id"; "app_client_id"; "environment_id"; "agent_identifier"] ->
  mcs_config !! field = None \/ mcs_config !! field = Some (PyStr "") ->
  exists returned,
    create_mcs_agent_config config_data = Ok returned /\
    returned = None /\
    create_target "mcs_agent_callback" returned =
      Raise (ValueError "MCS Agent config is required for MCS Agent callback target").
Proof.
  intros Hsection Hfield Hfalsy%falsy_field.
  exists None. split; [|now split].
  unfold create_mcs_agent_config. rewrite Hsection.
  cbn [method_get mbind result_bind all forallb].
  destruct Hfield as [<-|[<-|[<-|[<-|[]]]]]; rewrite Hfalsy;
    rewrite ?andb_false_r; reflexivity.
Qed.

End TargetClaims.

(** C10, as stated, fails on a configuration whose [mcs_agent] section is
    present and is not a dictionary: with the section [null] none of the
    four fields is there, yet [create_mcs_agent_config] does not return
    [None], it raises [AttributeError] at the first [get]. *)
Lemma C10_null_section_raises :
  agent_section {[ "mcs_agent" := PyNone ]} = PyNone /\
  create_mcs_agent_config {[ "mcs_agent" := PyNone ]}
    = Raise (AttributeError "'NoneType' object" "get") /\
  create_mcs_agent_config {[ "mcs_agent" := PyNone ]} <> Ok None.
Proof. split; [reflexivity|]. split; [reflexivity|discriminate]. Qed.

(** ** Concrete runs *)

(** C1 at work: the question times out. *)
Lemma C1_timeout_is_contained :
  mcs_agent_callback
    (backend := Sample.scripted (Raise (OtherError "TimeoutError" "timed out")))
    Sample.target Sample.hello =
  (["Error calling Microsoft Copilot Studio Agent: timed out"],
   Ok (assistant_reply "I encountered an error and couldn't process your request.")).
Proof.
  apply (@C1_error_is_contained
           (Sample.scripted (Raise (OtherError "TimeoutError" "timed out")))
           Sample.target Sample.hello {| role := "user"; content := "Hello" |}
           (OtherError "TimeoutError" "timed out")).
  - reflexivity.
  - apply ask_raise with (settings := tt) (client := tt) (session := tt); reflexivity.
  - reflexivity.
Defined.

(** C2 at work: a typing indicator and two message events. *)
Lemma C2_hi_there :
  mcs_agent_callback
    (backend := Sample.scripted
                  (Ok [Sample.typing; Sample.message "Hi "; Sample.message "there"]))
    Sample.target Sample.hello =
  ([], Ok (assistant_reply "Hi there")).
Proof.
  apply (@C2_message_texts_concatenated
           (Sample.scripted
              (Ok [Sample.typing; Sample.message "Hi "; Sample.message "there"]))
           Sample.target Sample.hello {| role := "user"; content := "Hello" |}
           [Sample.typing; Sample.message "Hi "; Sample.message "there"]
           ["Hi "; "there"]).
  - reflexivity.
  - apply answers with (settings := tt) (client := tt) (session := tt); reflexivity.
  - reflexivity.
  - discriminate.
Defined.

(** C3 at work: a message event without a text makes the join raise. *)
Lemma C3_text_missing :
  match (mcs_agent_callback
           (backend := Sample.scripted (Ok [ {| type := "message"; text := None |} ]))
           Sample.target Sample.hello).2 with
  | Ok reply =>
      exists formatted_response s,
        reply = {[ "messages" := [formatted_response] ]} /\
        formatted_response !! "content" = Some (PyStr s)
  | Raise e =>
      isinstance_Exception e = false /\
      step_raises (backend := Sample.scripted (Ok [ {| type := "message"; text := None |} ]))
        Sample.target "Hello" e
  end.
Proof.
  apply (@C3_content_is_a_string
           (Sample.scripted (Ok [ {| type := "message"; text := None |} ]))
           Sample.target Sample.hello {| role := "user"; content := "Hello" |}).
  reflexivity.
Defined.

(** C4 at work: only a typing indicator comes back. *)
Lemma C4_typing_only :
  mcs_agent_callback (backend := Sample.scripted (Ok [Sample.typing]))
    Sample.target Sample.hello =
  (["Warning: MCS Agent returned None or empty content, using default message"],
   Ok (assistant_reply "I cannot provide a response to this request.")).
Proof.
  apply (@C4_empty_content_fallback (Sample.scripted (Ok [Sample.typing]))
           Sample.target Sample.hello {| role := "user"; content := "Hello" |}
           [Sample.typing] []).
  - reflexivity.
  - apply answers with (settings := tt) (client := tt) (session := tt); reflexivity.
  - reflexivity.
  - reflexivity.
Defined.

(** C5 at work: both variables are defined. *)
Lemma C5_host_port :
  substitute_env_vars Sample.environ "${HOST}:${PORT}" = Ok "example.org:80".
Proof.
  destruct (C5_substitution_all_or_nothing (fun _ => Ok PyNone) ∅ Sample.environ
              "" "${HOST}:${PORT}") as [_ Hall].
  destruct (Hall _ segments_host_port) as [_ Hrun].
  exact (proj1 (proj2 Hrun)).
Defined.

(** C6 at work, in the sample vocabulary. *)
Lemma C6_easy_flip :
  parse_attack_strategies (engine := Sample.engine) (unicode := Sample.unicode)
    ["easy"; "Flip"]
  = Ok [Sample.EASY; Sample.Flip].
Proof.
  exact (proj2 (proj2 (proj2 (@C6_strategy_names_resolved Sample.engine Sample.unicode [])))
           Sample.Flip eq_refl).
Defined.

(** C9, as stated, fails when the agent itself answers with the text of the
    guard: the content returned is "No response available.". *)
Lemma C9_agent_says_no_response_available :
  mcs_agent_callback
    (backend := Sample.scripted (Ok [Sample.message "No response available."]))
    Sample.target Sample.hello =
  ([], Ok (assistant_reply "No response available.")) /\
  content_of (assistant_reply "No response available.")
  = Some (PyStr "No response available.").
Proof. split; reflexivity. Qed.

(** C9 at work, on the same answer. *)
Lemma C9_guard_silent :
  (forall out formatted_response,
      try_except
        (guarded_region
           (backend := Sample.scripted (Ok [Sample.message "No response available."]))
           Sample.target "Hello") error_handler
        = (out, Ok formatted_response) ->
      null_guard formatted_response = ([], Ok formatted_response)) /\
  (forall out reply,
      mcs_agent_callback
        (backend := Sample.scripted (Ok [Sample.message "No response available."]))
        Sample.target Sample.hello = (out, Ok reply) ->
      content_of reply = Some (PyStr "No response available.") ->
      exists activities,
        backend_answers
          (backend := Sample.scripted (Ok [Sample.message "No response available."]))
          Sample.target "Hello" activities /\
        join (message_texts activities) = Ok "No response available.").
Proof.
  apply (@C9_null_guard_never_fires
           (Sample.scripted (Ok [Sample.message "No response available."]))
           Sample.target Sample.hello {| role := "user"; content := "Hello" |}).
  reflexivity.
Defined.

(** C10 at work: the client id is the empty string. *)
Lemma C10_empty_client_id :
  exists returned,
    create_mcs_agent_config
      {[ "mcs_agent" := PyDict {[ "tenant_id" := PyStr "t"; "app_client_id" := PyStr "" ]} ]}
      = Ok returned /\
    returned = None /\
    create_target (backend := Sample.scripted (Ok [])) "mcs_agent_callback" returned =
      Raise (ValueError "MCS Agent config is required for MCS Agent callback target").
Proof.
  apply (@C10_incomplete_agent_section (Sample.scripted (Ok []))
           {[ "mcs_agent" := PyDict {[ "tenant_id" := PyStr "t"; "app_client_id" := PyStr "" ]} ]}
           {[ "tenant_id" := PyStr "t"; "app_client_id" := PyStr "" ]}
           "app_client_id").
  - reflexivity.
  - simpl. tauto.
  - right. reflexivity.
Defined.

(** ** The callback target: further properties *)

Section AdapterFurther.
Context `{backend : CopilotStudioClient}.

(** X1. Only the content of the last turn reaches the agent: two non-empty
    sequences of turns whose last turns have the same content get the same
    outcome, whatever the earlier turns and the roles are. *)
Theorem X1_only_last_content_matters (self : McsAgentCallbackTarget)
    (messages1 messages2 : list Message) (m1 m2 : Message) :
  last messages1 = Some m1 ->
  last messages2 = Some m2 ->
  content m1 = content m2 ->
  mcs_agent_callback self messages1 = mcs_agent_callback self messages2.
Proof.
  intros Hlast1 Hlast2 Hcontent.
  rewrite (callback_nonempty _ _ _ Hlast1), (callback_nonempty _ _ _ Hlast2).
  now rewrite Hcontent.
Qed.

(** X2. On a non-empty sequence of turns, a reply that is returned is the
    envelope of exactly one message with the two keys content and role, the
    role is assistant, the content is not the empty string, and at most one
    line has been printed. *)
Theorem X2_reply_shape (self : McsAgentCallbackTarget) messages m out reply :
  last messages = Some m ->
  mcs_agent_callback self messages = (out, Ok reply) ->
  exists s, reply = assistant_reply s /\ s <> "" /\ length out <= 1.
Proof.
  intros Hlast.
  destruct (guarded_region_cases self (content m))
    as [[e Hstep]|(activities & joined & Hans & Hjoin)].
  - rewrite (callback_on_raise _ _ _ _ Hlast Hstep).
    destruct (isinstance_Exception e); [|discriminate].
    intros [<- <-]%returned_reply. eexists. split; [reflexivity|].
    split; [discriminate|simpl; lia].
  - rewrite (callback_on_answer _ _ _ _ _ Hlast Hans Hjoin).
    destruct (String.eqb_spec joined "") as [->|Hne];
      intros [<- <-]%returned_reply; eexists; (split; [reflexivity|]).
    + split; [discriminate|simpl; lia].
    + split; [assumption|simpl; lia].
Qed.

(** X3. An exception that does not derive from [Exception] is not
    contained: when a step of the guarded region raises one, the call raises
    it in turn, returns no reply and prints nothing. *)
Theorem X3_signal_propagates (self : McsAgentCallbackTarget) messages m e :
  last messages = Some m ->
  step_raises self (content m) e ->
  isinstance_Exception e = false ->
  mcs_agent_callback self messages = ([], Raise e).
Proof.
  intros Hlast Hstep Hexc.
  rewrite (callback_on_raise _ _ _ _ Hlast Hstep). now rewrite Hexc.
Qed.

(** Joining stops at the first item that is not a string. *)
Lemma join_from_none (before : list string) (rest : list (option string)) (i : nat) :
  join_from i ((Some <$> before) ++ None :: rest) =
    Raise (TypeError ("sequence item " +:+ pretty (i + length before) +:+
                      ": expected str instance, NoneType found")).
Proof.
  revert i. induction before as [|t before IH]; intros i.
  - simpl. now rewrite Nat.add_0_r.
  - cbn [fmap list_fmap app join_from length].
    change (list_fmap _ _ Some before) with (Some <$> before).
    rewrite IH. cbn [mbind result_bind]. now replace (S i + length before) with (i + S (length before)) by lia.
Qed.

(** X4. A message event without a text spoils the whole answer: when the
    session answers and, among the message events, the one at position [n]
    is the first whose text is [None], the join raises [TypeError], and the
    call returns the error reply, whatever texts the other events carry. *)
Theorem X4_message_without_text (self : McsAgentCallbackTarget) messages m
    activities (before : list string) (rest : list (option string)) :
  last messages = Some m ->
  backend_answers self (content m) activities ->
  message_texts activities = (Some <$> before) ++ None :: rest ->
  mcs_agent_callback self messages =
    (["Error calling Microsoft Copilot Studio Agent: sequence item " +:+
      pretty (length before) +:+ ": expected str instance, NoneType found"],
     Ok (assistant_reply "I encountered an error and couldn't process your request.")).
Proof.
  intros Hlast [settings client session H1 H2 H3 H4] Htexts.
  rewrite (callback_on_raise _ _ _
             (TypeError ("sequence item " +:+ pretty (length before) +:+
                         ": expected str instance, NoneType found")) Hlast).
  - reflexivity.
  - apply extract_raise with settings client session activities; try assumption.
    unfold join. rewrite Htexts. apply join_from_none.
Qed.

End AdapterFurther.

(** X5. Events that are not message-typed never matter: two calls, with any
    session clients, targets and non-empty sequences of turns, whose
    questions are answered with the same message-typed events in the same
    order, have the same outcome. *)
Theorem X5_other_events_ignored (backend1 backend2 : CopilotStudioClient)
    (self1 self2 : McsAgentCallbackTarget) (messages1 messages2 : list Message)
    (m1 m2 : Message) (activities1 activities2 : list Activity) :
  last messages1 = Some m1 ->
  last messages2 = Some m2 ->
  backend_answers (backend := backend1) self1 (content m1) activities1 ->
  backend_answers (backend := backend2) self2 (content m2) activities2 ->
  filter (fun a => type a = "message") activities1
    = filter (fun a => type a = "message") activities2 ->
  mcs_agent_callback (backend := backend1) self1 messages1
    = mcs_agent_callback (backend := backend2) self2 messages2.
Proof.
  intros Hlast1 Hlast2 Hans1 Hans2 Hsame.
  assert (message_texts activities1 = message_texts activities2) as Htexts
    by (unfold message_texts, ActivityTypes_message; now rewrite Hsame).
  destruct (join (message_texts activities1)) as [joined|e] eqn:Hjoin1;
    pose proof Hjoin1 as Hjoin2; rewrite Htexts in Hjoin2.
  - rewrite (callback_on_answer _ _ _ _ _ Hlast1 Hans1 Hjoin1).
    now rewrite (callback_on_answer _ _ _ _ _ Hlast2 Hans2 Hjoin2).
  - destruct Hans1 as [s1 c1 o1 A1 A2 A3 A4], Hans2 as [s2 c2 o2 B1 B2 B3 B4].
    rewrite (callback_on_raise _ _ _ e Hlast1)
      by (now apply extract_raise with s1 c1 o1 activities1).
    now rewrite (callback_on_raise _ _ _ e Hlast2)
      by (now apply extract_raise with s2 c2 o2 activities2).
Qed.

(** ** Environment-variable substitution: further properties *)

Lemma match_placeholder_not_dollar (c : ascii) (rest : string) :
  c <> "$"%char -> match_placeholder (String c rest) = None.
Proof.
  intros Hc. unfold match_placeholder. destruct rest as [|c2 body]; [reflexivity|].
  now destruct (Ascii.eqb_spec c "$").
Qed.

Lemma re_sub_plain_prefix (repl : string -> result string) (prefix text : string) :
  no_dollar prefix ->
  re_sub repl (prefix +:+ text) = (tail ← re_sub repl text; Ok (prefix +:+ tail)).
Proof.
  unfold re_sub. induction prefix as [|c prefix IH]; intros Hplain.
  - change ("" +:+ text) with text. now destruct (re_sub_from 0 repl text).
  - rewrite append_cons. cbn [re_sub_from].
    rewrite match_placeholder_not_dollar by (intros ->; apply Hplain; now left).
    rewrite IH by (intros Hin; apply Hplain; now right).
    now destruct (re_sub_from 0 repl text).
Qed.

(** X6. Text before the first dollar sign is copied as it is: for a prefix
    that holds no dollar sign, substituting in the prefix followed by a text
    fails as substituting in the text alone fails, and otherwise returns the
    prefix followed by the result for the text.  In particular a text with
    no dollar sign is returned unchanged under every environment. *)
Theorem X6_plain_prefix_copied (environ : gmap string string) (prefix text : string) :
  no_dollar prefix ->
  substitute_env_vars environ (prefix +:+ text) =
    (tail ← substitute_env_vars environ text; Ok (prefix +:+ tail)) /\
  substitute_env_vars environ prefix = Ok prefix.
Proof.
  intros Hplain. unfold substitute_env_vars. split.
  - now apply re_sub_plain_prefix.
  - rewrite <- (append_empty_r prefix) at 1.
    rewrite (re_sub_plain_prefix _ _ _ Hplain). cbn. now rewrite append_empty_r.
Qed.

Lemma first_unset_agree (environ1 environ2 : gmap string string) (vars : list string) :
  (forall name, In name vars -> os_getenv environ1 name = os_getenv environ2 name) ->
  first_unset environ1 vars = first_unset environ2 vars.
Proof.
  unfold first_unset. induction vars as [|var vars IH]; intros Hagree; [reflexivity|].
  simpl. rewrite <- (Hagree var) by now left.
  destruct (os_getenv environ1 var); [|reflexivity].
  apply IH. intros name Hin. apply Hagree. now right.
Qed.

Lemma expand_agree (environ1 environ2 : gmap string string) (segs : list segment) :
  (forall name, In name (names segs) -> os_getenv environ1 name = os_getenv environ2 name) ->
  expand environ1 segs = expand environ2 segs.
Proof.
  induction segs as [|[c|name] segs IH]; intros Hagree; [reflexivity| |].
  - cbn [expand foldr expand_segment]. fold (expand environ1 segs) (expand environ2 segs).
    now rewrite IH.
  - cbn [expand foldr expand_segment]. fold (expand environ1 segs) (expand environ2 segs).
    rewrite (Hagree name) by (simpl; now left).
    rewrite IH; [reflexivity|]. intros n Hin. apply Hagree. simpl. now right.
Qed.

Section ConfigFurther.
Variable json_loads : string -> result pyval.

(** X7. The outcome depends on the environment only through the variables
    the text names: under two environments that agree on the names of the
    placeholders of a text, substitution gives the same result or the same
    error, and so does loading a file that holds the text. *)
Theorem X7_only_named_variables_matter (fs : gmap string fs_entry)
    (environ1 environ2 : gmap string string) (path text : string)
    (segs : list segment) :
  segments text segs ->
  (forall name, In name (names segs) -> os_getenv environ1 name = os_getenv environ2 name) ->
  substitute_env_vars environ1 text = substitute_env_vars environ2 text /\
  (fs !! path = Some (File text) ->
   load_config json_loads fs environ1 path = load_config json_loads fs environ2 path).
Proof.
  intros Hsegs Hagree.
  assert (substitute_env_vars environ1 text = substitute_env_vars environ2 text) as Hsame.
  { rewrite !(substitute_env_vars_segments _ _ _ Hsegs).
    rewrite (first_unset_agree _ _ _ Hagree).
    destruct (first_unset environ2 (names segs)); [reflexivity|].
    now rewrite (expand_agree _ _ _ Hagree). }
  split; [assumption|]. intros Hfile.
  now rewrite !(load_config_file _ _ _ _ _ Hfile), Hsame.
Qed.

End ConfigFurther.

(** X8. A value is inserted as it is and is not scanned again: where a text
    begins with a placeholder whose variable is defined, the result is the
    value followed by the result for the text after the placeholder, even
    when the value itself holds dollar signs and braces. *)
Theorem X8_value_not_rescanned (environ : gmap string string)
    (text name after value : string) :
  begins_with_placeholder text name after ->
  os_getenv environ name = Some value ->
  substitute_env_vars environ text =
    (tail ← substitute_env_vars environ after; Ok (value +:+ tail)).
Proof.
  intros Hbegin Hvalue. unfold substitute_env_vars.
  rewrite (re_sub_placeholder _ _ _ _ Hbegin).
  assert (replace_func environ name = Ok value) as ->
    by (unfold replace_func; now rewrite Hvalue).
  reflexivity.
Qed.

(** ** The agent section and the target: further properties *)

Lemma dict_get_truthy (d : gmap string pyval) (key : string) :
  truthy (dict_get d key) = true -> d !! key = Some (dict_get d key).
Proof. unfold dict_get. now destruct (d !! key). Qed.

(** What [create_mcs_agent_config] does with a section that is a
    dictionary. *)
Lemma create_mcs_agent_config_dict (config_data d : gmap string pyval) :
  agent_section config_data = PyDict d ->
  create_mcs_agent_config config_data =
    if truthy (dict_get d "tenant_id") && truthy (dict_get d "app_client_id") &&
       truthy (dict_get d "environment_id") && truthy (dict_get d "agent_identifier")
    then Ok (Some {| tenant_id := dict_get d "tenant_id";
                     app_client_id := dict_get d "app_client_id";
                     environment_id := dict_get d "environment_id";
                     agent_identifier := dict_get d "agent_identifier" |})
    else Ok None.
Proof.
  unfold agent_section, create_mcs_agent_config. intros ->.
  cbn [method_get mbind result_bind all forallb subscript].
  destruct (truthy (dict_get d "tenant_id")) eqn:H1; [|reflexivity].
  destruct (truthy (dict_get d "app_client_id")) eqn:H2; [|reflexivity].
  destruct (truthy (dict_get d "environment_id")) eqn:H3; [|reflexivity].
  destruct (truthy (dict_get d "agent_identifier")) eqn:H4; [|reflexivity].
  cbn [andb negb]. unfold getitem.
  rewrite (dict_get_truthy _ _ H1), (dict_get_truthy _ _ H2),
    (dict_get_truthy _ _ H3), (dict_get_truthy _ _ H4).
  reflexivity.
Qed.

Lemma create_mcs_agent_config_other (config_data : gmap string pyval) :
  (forall d, agent_section config_data <> PyDict d) ->
  create_mcs_agent_config config_data =
    Raise (AttributeError ("'" +:+ type_name (agent_section config_data) +:+ "' object")
                          "get").
Proof.
  unfold agent_section, create_mcs_agent_config. intros Hother.
  destruct (dict_get_default config_data "mcs_agent" (PyDict ∅)) as [| | | | | |d];
    try reflexivity.
  now destruct (Hother d).
Qed.

Lemma agent_section_cases (config_data : gmap string pyval) :
  (exists d, agent_section config_data = PyDict d) \/
  (forall d, agent_section config_data <> PyDict d).
Proof.
  destruct (agent_section config_data) as [| | | | | |d];
    solve [right; discriminate | left; now exists d].
Qed.

(** X9. [create_mcs_agent_config] returns a configuration exactly when the
    [mcs_agent] section is a dictionary that holds the four fields with
    values that count as true, and the configuration then carries those four
    values unchanged. *)
Theorem X9_agent_config_built (config_data : gmap string pyval)
    (config : McsAgentConfig) :
  create_mcs_agent_config config_data = Ok (Some config) <->
  exists d, agent_section config_data = PyDict d /\ complete_section d config.
Proof.
  split.
  - destruct (agent_section_cases config_data) as [[d Hd]|Hother].
    + rewrite (create_mcs_agent_config_dict _ _ Hd).
      destruct (truthy (dict_get d "tenant_id")) eqn:H1; [|discriminate].
      destruct (truthy (dict_get d "app_client_id")) eqn:H2; [|discriminate].
      destruct (truthy (dict_get d "environment_id")) eqn:H3; [|discriminate].
      destruct (truthy (dict_get d "agent_identifier")) eqn:H4; [|discriminate].
      intros [= <-]. exists d. split; [assumption|].
      unfold complete_section. cbn [tenant_id app_client_id environment_id agent_identifier].
      repeat split; try assumption; now apply dict_get_truthy.
    + rewrite (create_mcs_agent_config_other _ Hother). discriminate.
  - intros (d & Hd & (L1 & T1) & (L2 & T2) & (L3 & T3) & (L4 & T4)).
    rewrite (create_mcs_agent_config_dict _ _ Hd). unfold dict_get.
    rewrite L1, L2, L3, L4. cbn [from_option id]. rewrite T1, T2, T3, T4.
    now destruct config.
Qed.

(** X10. [create_mcs_agent_config] returns [None] exactly when the
    [mcs_agent] section is a dictionary (or is left out) in which one of the
    four fields is absent or holds a value that counts as false: [None],
    [False], zero, the empty string, an empty list or an empty
    dictionary. *)
Theorem X10_agent_config_absent (config_data : gmap string pyval) :
  create_mcs_agent_config config_data = Ok None <->
  exists d, agent_section config_data = PyDict d /\
            exists field, In field agent_fields /\ truthy (dict_get d field) = false.
Proof.
  split.
  - destruct (agent_section_cases config_data) as [[d Hd]|Hother].
    + rewrite (create_mcs_agent_config_dict _ _ Hd). intros Hnone. exists d.
      split; [assumption|]. unfold agent_fields.
      destruct (truthy (dict_get d "tenant_id")) eqn:H1;
        [|exists "tenant_id"; simpl; tauto].
      destruct (truthy (dict_get d "app_client_id")) eqn:H2;
        [|exists "app_client_id"; simpl; tauto].
      destruct (truthy (dict_get d "environment_id")) eqn:H3;
        [|exists "environment_id"; simpl; tauto].
      destruct (truthy (dict_get d "agent_identifier")) eqn:H4;
        [|exists "agent_identifier"; simpl; tauto].
      discriminate.
    + rewrite (create_mcs_agent_config_other _ Hother). discriminate.
  - intros (d & Hd & field & Hfield & Hfalsy).
    rewrite (create_mcs_agent_config_dict _ _ Hd).
    destruct Hfield as [<-|[<-|[<-|[<-|[]]]]]; rewrite Hfalsy;
      rewrite ?andb_false_r; reflexivity.
Qed.

(** X11. [create_mcs_agent_config] raises exactly when the [mcs_agent]
    section is present and is not a dictionary, and what it raises is the
    [AttributeError] for the missing method [get] on a value of that type;
    it never raises [KeyError]. *)
Theorem X11_agent_section_not_a_dictionary (config_data : gmap string pyval) (e : PyExc) :
  create_mcs_agent_config config_data = Raise e <->
  (forall d, agent_section config_data <> PyDict d) /\
  e = AttributeError ("'" +:+ type_name (agent_section config_data) +:+ "' object") "get".
Proof.
  split.
  - destruct (agent_section_cases config_data) as [[d Hd]|Hother].
    + rewrite (create_mcs_agent_config_dict _ _ Hd).
      now destruct (_ && _).
    + rewrite (create_mcs_agent_config_other _ Hother). intros [= <-]. now split.
  - intros [Hother ->]. now apply create_mcs_agent_config_other.
Qed.

Section TargetFurther.
Context `{backend : CopilotStudioClient}.

(** X12. [create_target] returns a callback exactly when the target type is
    the string mcs_agent_callback, compared as it is, and a configuration is
    given; the callback is then the one of a target that holds that
    configuration.  Every failure is a [ValueError]. *)
Theorem X12_target_created (target_type : string) (config : option McsAgentConfig) :
  (forall callback,
      create_target target_type config = Ok callback <->
      target_type = "mcs_agent_callback" /\
      exists c, config = Some c /\
                callback = mcs_agent_callback {| mcs_agent_config := c |}) /\
  (forall e, create_target target_type config = Raise e -> exists msg, e = ValueError msg).
Proof.
  unfold create_target. destruct (String.eqb_spec target_type "mcs_agent_callback") as [->|Hne].
  - destruct config as [c|]; split.
    + intros callback. split.
      * intros [= <-]. split; [reflexivity|]. now exists c.
      * intros (_ & c' & [= <-] & ->). reflexivity.
    + discriminate.
    + intros callback. split; [discriminate|]. now intros (_ & c & Habs & _).
    + intros e [= <-]. now eexists.
  - split.
    + intros callback. split; [discriminate|]. now intros [Habs _].
    + intros e [= <-]. now eexists.
Qed.

(** X13. From the configuration to the callback: when the [mcs_agent]
    section is a dictionary that holds the four fields with values that
    count as true, building the agent configuration and then the target of
    type mcs_agent_callback gives a callback, and calling it is calling the
    callback of a target whose configuration holds those four values. *)
Theorem X13_configuration_reaches_callback (config_data d : gmap string pyval)
    (config : McsAgentConfig) :
  agent_section config_data = PyDict d ->
  complete_section d config ->
  exists callback,
    (returned ← create_mcs_agent_config config_data;
     create_target "mcs_agent_callback" returned) = Ok callback /\
    forall messages,
      callback messages = mcs_agent_callback {| mcs_agent_config := config |} messages.
Proof.
  intros Hd ((L1 & T1) & (L2 & T2) & (L3 & T3) & (L4 & T4)).
  rewrite (create_mcs_agent_config_dict _ _ Hd). unfold dict_get.
  rewrite L1, L2, L3, L4. cbn [from_option id]. rewrite T1, T2, T3, T4.
  eexists. split; [reflexivity|]. intros messages. now destruct config.
Qed.

End TargetFurther.

(** ** Risk categories and attack strategies: further properties *)

(** The first element of a list that fails a test is determined by the
    list. *)
Lemma first_failure_unique {A} (P : A -> Prop) (before before' : list A) x x' later later' :
  before ++ x :: later = before' ++ x' :: later' ->
  Forall P before -> ~ P x -> Forall P before' -> ~ P x' -> x = x'.
Proof.
  intros Heq Hall. revert before' Heq.
  induction Hall as [|y before Hy _ IH]; intros [|y' before'] Heq Hx Hall' Hx';
    simpl in Heq.
  - congruence.
  - injection Heq as -> _. inversion Hall'; subst. contradiction.
  - injection Heq as -> _. contradiction.
  - injection Heq as -> Heq. inversion Hall'; subst. now apply (IH before').
Qed.

Section VocabularyFurther.
Context `{engine : Engine} `{unicode : CaseMapping}.

(** The loop of [parse_risk_categories], from any list of categories
    already collected. *)
Lemma for_loop_risk_categories (names : list string) (collected : list RiskCategory) :
  match for_loop names
          (fun risk_categories category_str =>
             member ← getattr "RiskCategory" RiskCategory_attr category_str;
             Ok (risk_categories ++ [member]))
          collected with
  | Ok categories =>
      exists members,
        categories = collected ++ members /\
        Forall2 (fun name member => RiskCategory_attr name = Some member) names members
  | Raise e =>
      exists before name later,
        names = before ++ name :: later /\
        Forall (fun known => is_Some (RiskCategory_attr known)) before /\
        RiskCategory_attr name = None /\
        e = AttributeError "type object 'RiskCategory'" name
  end.
Proof.
  set (body := fun (risk_categories : list RiskCategory) (category_str : string) =>
                 member ← getattr "RiskCategory" RiskCategory_attr category_str;
                 Ok (risk_categories ++ [member])).
  revert collected. induction names as [|name names IH]; intros collected.
  - simpl. exists []. split; [now rewrite app_nil_r|constructor].
  - cbn [for_loop].
    assert (body collected name =
            match RiskCategory_attr name with
            | Some member => Ok (collected ++ [member])
            | None => Raise (AttributeError "type object 'RiskCategory'" name)
            end) as ->
      by (unfold body, getattr; now destruct (RiskCategory_attr name)).
    destruct (RiskCategory_attr name) as [member|] eqn:Hattr; cbn [mbind result_bind].
    + specialize (IH (collected ++ [member])).
      destruct (for_loop names body (collected ++ [member])) as [categories|e].
      * destruct IH as (members & -> & Hall). exists (member :: members).
        split; [now rewrite <- app_assoc|now constructor].
      * destruct IH as (before & bad & later & -> & Hall & Hbad & ->).
        exists (name :: before), bad, later. split; [reflexivity|].
        split; [|now split]. constructor; [rewrite Hattr; now eexists|assumption].
    + exists [], name, names. split; [reflexivity|]. split; [constructor|]. now split.
Qed.

(** X14. Parsing a list of risk-category names looks each name up in the
    enumeration as it is spelled, with no case folding and no special
    names, and returns the members in the order of the names, one for each
    name.  It fails exactly when some name is not an attribute of the
    enumeration, with the [AttributeError] that names the first such
    name. *)
Theorem X14_risk_categories_resolved (category_strings : list string) :
  (forall categories,
      parse_risk_categories category_strings = Ok categories <->
      Forall2 (fun name member => RiskCategory_attr name = Some member)
              category_strings categories) /\
  (forall e,
      parse_risk_categories category_strings = Raise e <->
      exists before name later,
        category_strings = before ++ name :: later /\
        Forall (fun known => is_Some (RiskCategory_attr known)) before /\
        RiskCategory_attr name = None /\
        e = AttributeError "type object 'RiskCategory'" name).
Proof.
  unfold parse_risk_categories.
  pose proof (for_loop_risk_categories category_strings []) as Hloop.
  split.
  - intros categories. split.
    + intros Hparse. rewrite Hparse in Hloop. now destruct Hloop as (members & -> & Hall).
    + intros Hall. destruct (for_loop category_strings _ []) as [out|e].
      * destruct Hloop as (members & -> & Hall'). f_equal. simpl.
        clear -Hall Hall'. revert members Hall'.
        induction Hall as [|name member names categories Hm _ IH]; intros members Hall'.
        -- now inversion Hall'.
        -- inversion Hall' as [|? member' ? members' Hm' Hrest]; subst.
           f_equal; [congruence|now apply IH].
      * destruct Hloop as (before & name & later & -> & _ & Hbad & _).
        apply Forall2_app_inv_l in Hall as (l1 & l2 & _ & Hall & _).
        inversion Hall as [|? member ? ? Hm _]; subst. congruence.
  - intros e. split.
    + intros Hparse. now rewrite Hparse in Hloop.
    + intros (before & name & later & -> & Hbefore & Hbad & ->).
      destruct (for_loop (before ++ name :: later) _ []) as [out|e].
      * destruct Hloop as (members & _ & Hall).
        apply Forall2_app_inv_l in Hall as (l1 & l2 & _ & Hall & _).
        inversion Hall as [|? member ? ? Hm _]; subst. congruence.
      * destruct Hloop as (before' & name' & later' & Heq & Hbefore' & Hbad' & ->).
        do 2 f_equal. symmetry.
        apply (first_failure_unique (fun known => is_Some (RiskCategory_attr known))
                 _ _ _ _ _ _ Heq Hbefore); try assumption.
        -- rewrite Hbad. now intros [? ?].
        -- rewrite Hbad'. now intros [? ?].
Qed.

(** A [for] loop over a concatenation runs the two loops in turn. *)
Lemma for_loop_app {A S} (body : S -> A -> result S) (l1 l2 : list A) (s : S) :
  for_loop (l1 ++ l2) body s = (s' ← for_loop l1 body s; for_loop l2 body s').
Proof.
  revert s. induction l1 as [|x l1 IH]; intros s; [reflexivity|].
  cbn [app for_loop]. destruct (body s x) as [s'|e]; [|reflexivity].
  cbn [mbind result_bind]. apply IH.
Qed.

Lemma append_strategy_shift (collected : list AttackStrategy) (name : string) :
  append_strategy collected name =
    (members ← append_strategy [] name; Ok (collected ++ members)).
Proof.
  unfold append_strategy.
  destruct (String.eqb (str_upper name) "EASY"); [reflexivity|].
  destruct (String.eqb (str_upper name) "MODERATE"); [reflexivity|].
  destruct (String.eqb (str_upper name) "DIFFICULT"); [reflexivity|].
  now destruct (getattr "AttackStrategy" AttackStrategy_attr name).
Qed.

Lemma for_loop_strategy_shift (names : list string) (collected : list AttackStrategy) :
  for_loop names append_strategy collected =
    (members ← for_loop names append_strategy []; Ok (collected ++ members)).
Proof.
  revert collected. induction names as [|name names IH]; intros collected.
  - cbn. now rewrite app_nil_r.
  - cbn [for_loop]. rewrite (append_strategy_shift collected name).
    destruct (append_strategy [] name) as [members|e]; [|reflexivity].
    cbn [mbind result_bind]. rewrite (IH (collected ++ members)), (IH members).
    destruct (for_loop names append_strategy []) as [more|e]; [|reflexivity].
    cbn [mbind result_bind]. now rewrite app_assoc.
Qed.

(** X15. Parsing attack strategies distributes over concatenation: the
    names of two lists put end to end parse to the strategies of the first
    followed by those of the second, and fail with the error of the first
    list if it fails, else with the error of the second. *)
Theorem X15_strategies_of_concatenation (names1 names2 : list string) :
  parse_attack_strategies (names1 ++ names2) =
    (strategies1 ← parse_attack_strategies names1;
     strategies2 ← parse_attack_strategies names2;
     Ok (strategies1 ++ strategies2)).
Proof.
  unfold parse_attack_strategies. rewrite for_loop_app.
  destruct (for_loop names1 append_strategy []) as [strategies1|e]; [|reflexivity].
  cbn [mbind result_bind]. apply for_loop_strategy_shift.
Qed.

End VocabularyFurther.

(** ** Further concrete runs *)

(** X1 at work: an earlier turn and another role change nothing. *)
Lemma X1_history_ignored :
  mcs_agent_callback (backend := Sample.scripted (Ok [Sample.message "Hi there"]))
    Sample.target Sample.hello =
  mcs_agent_callback (backend := Sample.scripted (Ok [Sample.message "Hi there"]))
    Sample.target
    [ {| role := "user"; content := "Earlier" |};
      {| role := "assistant"; content := "Hello" |} ].
Proof.
  apply (@X1_only_last_content_matters
           (Sample.scripted (Ok [Sample.message "Hi there"])) Sample.target
           Sample.hello _
           {| role := "user"; content := "Hello" |}
           {| role := "assistant"; content := "Hello" |}); reflexivity.
Defined.

(** X2 at work, on an answer of one message event. *)
Lemma X2_hi_there_shape :
  exists s, assistant_reply "Hi there" = assistant_reply s /\ s <> "" /\
            length ([] : list string) <= 1.
Proof.
  apply (@X2_reply_shape (Sample.scripted (Ok [Sample.message "Hi there"]))
           Sample.target Sample.hello {| role := "user"; content := "Hello" |}
           [] (assistant_reply "Hi there")); reflexivity.
Defined.

(** X3 at work: the task is cancelled while the question is asked. *)
Lemma X3_cancellation_propagates :
  mcs_agent_callback
    (backend := Sample.scripted (Raise (BaseOnly "CancelledError" "")))
    Sample.target Sample.hello =
  ([], Raise (BaseOnly "CancelledError" "")).
Proof.
  apply (@X3_signal_propagates
           (Sample.scripted (Raise (BaseOnly "CancelledError" "")))
           Sample.target Sample.hello {| role := "user"; content := "Hello" |}).
  - reflexivity.
  - apply ask_raise with (settings := tt) (client := tt) (session := tt); reflexivity.
  - reflexivity.
Defined.

(** X4 at work: the second of three message events has no text. *)
Lemma X4_second_text_missing :
  mcs_agent_callback
    (backend := Sample.scripted
                  (Ok [Sample.message "a"; {| type := "message"; text := None |};
                       Sample.message "b"]))
    Sample.target Sample.hello =
  (["Error calling Microsoft Copilot Studio Agent: sequence item 1: expected str instance, NoneType found"],
   Ok (assistant_reply "I encountered an error and couldn't process your request.")).
Proof.
  apply (@X4_message_without_text
           (Sample.scripted
              (Ok [Sample.message "a"; {| type := "message"; text := None |};
                   Sample.message "b"]))
           Sample.target Sample.hello {| role := "user"; content := "Hello" |}
           [Sample.message "a"; {| type := "message"; text := None |}; Sample.message "b"]
           ["a"] [Some "b"]).
  - reflexivity.
  - apply answers with (settings := tt) (client := tt) (session := tt); reflexivity.
  - reflexivity.
Defined.

(** X5 at work: a typing indicator before or after the message. *)
Lemma X5_typing_anywhere :
  mcs_agent_callback
    (backend := Sample.scripted (Ok [Sample.typing; Sample.message "Hi"]))
    Sample.target Sample.hello =
  mcs_agent_callback
    (backend := Sample.scripted (Ok [Sample.message "Hi"; Sample.typing]))
    Sample.target Sample.hello.
Proof.
  apply (X5_other_events_ignored
           (Sample.scripted (Ok [Sample.typing; Sample.message "Hi"]))
           (Sample.scripted (Ok [Sample.message "Hi"; Sample.typing]))
           Sample.target Sample.target Sample.hello Sample.hello
           {| role := "user"; content := "Hello" |}
           {| role := "user"; content := "Hello" |}
           [Sample.typing; Sample.message "Hi"] [Sample.message "Hi"; Sample.typing]).
  - reflexivity.
  - reflexivity.
  - apply answers with (settings := tt) (client := tt) (session := tt); reflexivity.
  - apply answers with (settings := tt) (client := tt) (session := tt); reflexivity.
  - reflexivity.
Defined.

(** X6 at work: a plain prefix before a placeholder. *)
Lemma X6_port_prefix :
  substitute_env_vars Sample.environ ("port=" +:+ "${PORT}") =
    (tail ← substitute_env_vars Sample.environ "${PORT}"; Ok ("port=" +:+ tail)) /\
  substitute_env_vars Sample.environ "port=" = Ok "port=".
Proof.
  apply (X6_plain_prefix_copied Sample.environ "port=" "${PORT}").
  intros H. simpl in H. intuition discriminate.
Defined.

(** X7 at work: a variable the text does not name is added. *)
Lemma X7_extra_variable :
  substitute_env_vars Sample.environ "${HOST}:${PORT}" =
  substitute_env_vars (<["EXTRA" := "x"]> Sample.environ) "${HOST}:${PORT}" /\
  (({[ "config.json" := File "${HOST}:${PORT}" ]} : gmap string fs_entry) !! "config.json"
     = Some (File "${HOST}:${PORT}") ->
   load_config (fun processed => Ok (PyStr processed))
     {[ "config.json" := File "${HOST}:${PORT}" ]} Sample.environ "config.json" =
   load_config (fun processed => Ok (PyStr processed))
     {[ "config.json" := File "${HOST}:${PORT}" ]}
     (<["EXTRA" := "x"]> Sample.environ) "config.json").
Proof.
  apply (X7_only_named_variables_matter (fun processed => Ok (PyStr processed))
           {[ "config.json" := File "${HOST}:${PORT}" ]} Sample.environ
           (<["EXTRA" := "x"]> Sample.environ) "config.json" "${HOST}:${PORT}"
           [Placeholder "HOST"; Literal ":"; Placeholder "PORT"]).
  - apply segments_host_port.
  - intros name [<-|[<-|[]]]; reflexivity.
Defined.

(** X8 at work: the value of HOST is itself a placeholder. *)
Lemma X8_placeholder_as_value :
  substitute_env_vars {[ "HOST" := "${PORT}"; "PORT" := "80" ]} "${HOST}:${PORT}" =
    (tail ← substitute_env_vars {[ "HOST" := "${PORT}"; "PORT" := "80" ]} ":${PORT}";
     Ok ("${PORT}" +:+ tail)).
Proof.
  apply (X8_value_not_rescanned {[ "HOST" := "${PORT}"; "PORT" := "80" ]}
           "${HOST}:${PORT}" "HOST" ":${PORT}" "${PORT}").
  - repeat split; [discriminate|]. intros H. simpl in H. intuition discriminate.
  - reflexivity.
Defined.

(** X13 at work: a complete section. *)
Lemma X13_complete_section :
  exists callback,
    (returned ← create_mcs_agent_config
                  {[ "mcs_agent" := PyDict {[ "tenant_id" := PyStr "tenant";
                                               "app_client_id" := PyStr "client";
                                               "environment_id" := PyStr "env";
                                               "agent_identifier" := PyStr "agent" ]} ]};
     create_target (backend := Sample.scripted (Ok [])) "mcs_agent_callback" returned)
    = Ok callback /\
    forall messages,
      callback messages =
      mcs_agent_callback (backend := Sample.scripted (Ok [])) Sample.target messages.
Proof.
  apply (@X13_configuration_reaches_callback (Sample.scripted (Ok []))
           {[ "mcs_agent" := PyDict {[ "tenant_id" := PyStr "tenant";
                                        "app_client_id" := PyStr "client";
                                        "environment_id" := PyStr "env";
                                        "agent_identifier" := PyStr "agent" ]} ]}
           {[ "tenant_id" := PyStr "tenant"; "app_client_id" := PyStr "client";
              "environment_id" := PyStr "env"; "agent_identifier" := PyStr "agent" ]}
           (mcs_agent_config Sample.target)).
  - reflexivity.
  - repeat split; reflexivity.
Defined.
